(** * LiteCore artifact fetcher: variant resolution, file names and paths

    A shallow embedding of [fetch_litecore_base.py].  Python values are
    modelled as follows:
    - [str] as [string], the characters of its UTF-8 encoding; the
      separators and keywords the script looks for are ASCII, so working on
      these characters gives the same pieces as working on code points, and
      where the script counts characters ([ljust]) code points are counted;
    - a raised exception as the [Raise] case of [result];
    - [set] as [gset string];
    - the file system, the standard output and the calls made to the host
      as explicit state, threaded through a state-and-exception monad;
    - what the script takes from its surroundings (working directory,
      platform extension, path resolution, build server, archive library)
      as a [Host], whose calls answer or raise. *)

From Stdlib Require Import Ascii String ZArith Lia.
From stdpp Require Import base option list gmap strings pretty.

Set Warnings "-clear-no-such-hyp".

Open Scope Z_scope.
Open Scope nat_scope.

(** String concatenation unfolds on a constructor, as list concatenation. *)
Arguments String.append !s1 s2 : simpl nomatch.

(** ** Exceptions and results *)

Inductive exception : Type :=
  | ValueError
  | IndexError
  | HTTPError (code : Z)
  | URLError
  | OSError
  | BadZipFile
  | OtherError (name : string).

Inductive result (A : Type) : Type :=
  | Ok (a : A)
  | Raise (e : exception).

Arguments Ok {A} a.
Arguments Raise {A} e.

Global Instance result_ret : MRet result := fun A a => Ok a.

Global Instance result_bind : MBind result := fun A B k m =>
  match m with
  | Ok a => k a
  | Raise e => Raise e
  end.

Definition succeeds {A : Type} (m : result A) : Prop :=
  exists a, m = Ok a.

(** ** The operations of Python's [str] and [list] used by the script *)

Module PyStr.

(** [s.startswith(p)] *)
Fixpoint startswith (s p : string) {struct p} : bool :=
  match p with
  | EmptyString => true
  | String a p' =>
      match s with
      | EmptyString => false
      | String b s' => if Ascii.eqb a b then startswith s' p' else false
      end
  end.

(** The lowest position at which [sub] occurs in [s], if any. *)
Fixpoint find_opt (s sub : string) : option nat :=
  if startswith s sub then Some 0
  else match s with
       | EmptyString => None
       | String _ s' => S <$> find_opt s' sub
       end.

(** [s.find(sub)]: the lowest position, or [-1]. *)
Definition find (s sub : string) : Z :=
  match find_opt s sub with
  | Some i => Z.of_nat i
  | None => (-1)%Z
  end.

(** [s.index(sub)]: as [find], but raises [ValueError]. *)
Definition index (s sub : string) : result nat :=
  match find_opt s sub with
  | Some i => Ok i
  | None => Raise ValueError
  end.

(** [s[0:n]] *)
Fixpoint slice_to (n : nat) (s : string) : string :=
  match n, s with
  | S k, String a s' => String a (slice_to k s')
  | _, _ => EmptyString
  end.

(** [s[n:]] *)
Fixpoint slice_from (n : nat) (s : string) : string :=
  match n, s with
  | S k, String _ s' => slice_from k s'
  | _, _ => s
  end.

(** [s.replace(old, new)] for a non-empty [old]: every occurrence, left
    to right, without overlap.  [skip] counts the characters of an
    occurrence that was just replaced and are still to be passed over. *)
Fixpoint replace_from (skip : nat) (s old new : string) : string :=
  match s with
  | EmptyString => EmptyString
  | String a s' =>
      match skip with
      | S k => replace_from k s' old new
      | O =>
          if startswith s old
          then new +:+ replace_from (String.length old - 1) s' old new
          else String a (replace_from 0 s' old new)
      end
  end.

Definition replace (s old new : string) : string :=
  replace_from 0 s old new.

(** [s.split(sep)] for a non-empty [sep].  The head of the result is the
    piece being read. *)
Fixpoint split_from (skip : nat) (s sep : string) : list string :=
  match s with
  | EmptyString => [EmptyString]
  | String a s' =>
      match skip with
      | S k => split_from k s' sep
      | O =>
          if startswith s sep
          then EmptyString :: split_from (String.length sep - 1) s' sep
          else match split_from 0 s' sep with
               | piece :: pieces => String a piece :: pieces
               | [] => [String a EmptyString]
               end
      end
  end.

Definition split (s sep : string) : list string :=
  split_from 0 s sep.

(** [s.endswith(suffix)] *)
Definition endswith (s suffix : string) : bool :=
  (String.length suffix <=? String.length s)
  && String.eqb (slice_from (String.length s - String.length suffix) s) suffix.

(** [s.lstrip(c)] for a single character [c] *)
Fixpoint lstrip (c : ascii) (s : string) : string :=
  match s with
  | EmptyString => EmptyString
  | String a s' => if Ascii.eqb a c then lstrip c s' else s
  end.

(** [sep.join(l)] *)
Fixpoint join (sep : string) (l : list string) : string :=
  match l with
  | [] => EmptyString
  | [x] => x
  | x :: l' => x +:+ sep +:+ join sep l'
  end.

(** A character of the UTF-8 encoding that continues a code point
    ([0x80..0xBF]). *)
Definition continuation (a : ascii) : bool :=
  (128 <=? nat_of_ascii a) && (nat_of_ascii a <? 192).

(** [len(s)]: the number of code points. *)
Fixpoint len (s : string) : nat :=
  match s with
  | EmptyString => 0
  | String a s' => if continuation a then len s' else S (len s')
  end.

(** [l[i]] for a non-negative [i] *)
Definition getitem (l : list string) (i : nat) : result string :=
  match l !! i with
  | Some x => Ok x
  | None => Raise IndexError
  end.

End PyStr.

(** ** FilenameResolver and VariantSplitter *)

Definition filename_for_platform (platform : string) (debug : bool)
    (build : option string) : result string :=
  let platform := if String.eqb platform "ios/net" then "ios" else platform in
  let debug_str := if debug then "-debug" else "" in
  let ext :=
    if String.eqb platform "linux" || String.eqb platform "centos6"
    then "tar.gz" else "zip" in
  match build with
  | Some build =>
      let build_parts := PyStr.split build "-" in
      edition ←
        (if 2 <? length build_parts
         then part2 ← PyStr.getitem build_parts 2;
              Ok (if String.eqb part2 "EE" then "enterprise" else "community")
         else Ok "community");
      part0 ← PyStr.getitem build_parts 0;
      part1 ← PyStr.getitem build_parts 1;
      Ok ("couchbase-lite-core-" +:+ edition +:+ "-" +:+ part0 +:+ "-"
            +:+ part1 +:+ "-" +:+ platform +:+ debug_str +:+ "." +:+ ext)
  | None =>
      Ok ("couchbase-lite-core-" +:+ platform +:+ debug_str +:+ "." +:+ ext)
  end.

Definition variant_to_pair (variant : string) : result (string * string) :=
  if String.eqb variant "linux" || String.eqb variant "centos6"
  then Ok (variant, "x86_64")
  else if String.eqb variant "macosx"
  then Ok ("macos", "")
  else if PyStr.startswith variant "ios"
  then Ok ("ios", "")
  else
    first_dash ← PyStr.index variant "-";
    let osname := PyStr.slice_to first_dash variant in
    let abi := PyStr.slice_from (first_dash + 1) variant in
    if String.eqb osname "android"
    then Ok (osname, abi)
    else if negb (PyStr.find abi "win64" =? -1)%Z
    then Ok ("windows", PyStr.replace abi "win64" "x86_64")
    else Ok (osname, abi).

(** ** VariantExpander *)

(** One turn of the [for v in original] loop. *)
Definition calculate_variants_step (final_variants : gset string) (v : string)
    : gset string :=
  if String.eqb v "dotnet" then
    final_variants ∪ {[ "linux"; "android-x86_64"; "android-x86";
                        "android-armeabi-v7a"; "android-arm64-v8a"; "macosx";
                        "ios/net"; "windows-win64"; "windows-arm64" ]}
  else if String.eqb v "android" then
    final_variants ∪ {[ "android-x86_64"; "android-x86";
                        "android-armeabi-v7a"; "android-arm64-v8a" ]}
  else if String.eqb v "java" then
    final_variants ∪ {[ "linux"; "macosx"; "windows-win64" ]}
  else if String.eqb v "windows" then
    final_variants ∪ {[ "windows-win64"; "windows-arm64" ]}
  else if String.eqb v "macos" then
    final_variants ∪ {[ "macosx" ]}
  else
    final_variants ∪ {[ v ]}.

(** [original] is any iterable; the list gives its elements in the order the
    loop meets them (for a Python set, some order of its elements). *)
Definition calculate_variants (original : list string) : gset string :=
  foldl calculate_variants_step ∅ original.

(** ** Paths: the part of [pathlib] on POSIX that the script uses *)

Module PyPath.

(** A path is its root ([""] when relative, ["/"], or ["//"] for exactly
    two leading slashes) and its components. *)
Record Path : Type := { root : string; parts : list string }.

Definition splitroot (s : string) : string * string :=
  if PyStr.startswith s "/" then
    let rel := PyStr.lstrip "/"%char s in
    (if String.length s - String.length rel =? 2 then "//" else "/", rel)
  else ("", s).

(** [Path(s)]: empty components and ["."] are dropped. *)
Definition parse (s : string) : Path :=
  let '(r, rel) := splitroot s in
  {| root := r;
     parts := filter (fun x => x ≠ "" ∧ x ≠ ".") (PyStr.split rel "/") |}.

Definition is_absolute (p : Path) : bool :=
  negb (String.eqb (root p) "").

(** [p.joinpath(q)]: an absolute [q] replaces [p]. *)
Definition joinpath (p q : Path) : Path :=
  if is_absolute q then q
  else {| root := root p; parts := parts p ++ parts q |}.

(** [str(p)] *)
Definition str (p : Path) : string :=
  match root p, parts p with
  | EmptyString, [] => "."
  | r, l => r +:+ PyStr.join "/" l
  end.

(** [os.path.join(a, b)] on strings *)
Definition os_path_join (a b : string) : string :=
  if PyStr.startswith b "/" then b
  else if String.eqb a "" || PyStr.endswith a "/" then a +:+ b
  else a +:+ "/" +:+ b.

End PyPath.

Import PyPath.

(** ** The host: file system, network and archive library *)

Inductive node : Type :=
  | Dir
  | File (content : string)
  | Symlink (target : string).

(** The file system maps the components of an absolute path to what is
    stored there; the root directory always exists.  It has one device, no
    permissions and no limit on the length of names.  [path_key] reads a
    path lexically: it is used for the paths the script has resolved.  A
    name that comes out of an archive is looked up by [walk], as the system
    does it. *)
Abbreviation FS := (gmap (list string) node).

Fixpoint normalize (acc : list string) (l : list string) : list string :=
  match l with
  | [] => acc
  | x :: l' =>
      if String.eqb x "" || String.eqb x "." then normalize acc l'
      else if String.eqb x ".." then normalize (removelast acc) l'
      else normalize (acc ++ [x]) l'
  end.

Definition path_key (cwd : string) (path : string) : list string :=
  if PyStr.startswith path "/"
  then normalize [] (PyStr.split path "/")
  else normalize (normalize [] (PyStr.split cwd "/")) (PyStr.split path "/").

Definition lookup_node (fs : FS) (k : list string) : option node :=
  match k with
  | [] => Some Dir
  | _ => fs !! k
  end.

(** The most links the system follows while it looks up one name. *)
Definition MAXSYMLINKS : nat := 40.

(** The walk of the system from the directory [dir] through [names]: it
    passes only through directories that exist, steps back on [".."] and
    follows a link it meets, a relative one from the directory that holds
    it, giving up after [links] of them.  It answers the directory it ends
    in. *)
Fixpoint walk (links : nat) (fs : FS) (dir : list string) (names : list string)
    {struct links} : result (list string) :=
  (fix go (dir : list string) (names : list string) {struct names}
       : result (list string) :=
     match names with
     | [] => Ok dir
     | x :: rest =>
         if String.eqb x "" || String.eqb x "." then go dir rest
         else if String.eqb x ".." then go (removelast dir) rest
         else match lookup_node fs (dir ++ [x]) with
              | Some Dir => go (dir ++ [x]) rest
              | Some (Symlink target) =>
                  match links with
                  | S n =>
                      if String.eqb target "" then Raise OSError
                      else walk n fs
                             (if PyStr.startswith target "/" then [] else dir)
                             (PyStr.split target "/" ++ rest)
                  | O => Raise OSError
                  end
              | _ => Raise OSError
              end
     end) dir names.

(** Where a new name [path] goes: the directory found by walking all but
    its last component, and that component, which must be a name of its
    own.  A relative path starts from the working directory [cwd]. *)
Definition new_name_place (cwd path : string) (fs : FS)
    : result (list string) :=
  let names := PyStr.split path "/" in
  let name := List.last names "" in
  if String.eqb name "" || String.eqb name "." || String.eqb name ".."
  then Raise OSError
  else
    start ← (if PyStr.startswith path "/" then Ok []
             else walk MAXSYMLINKS fs [] (PyStr.split cwd "/"));
    dir ← walk MAXSYMLINKS fs start (removelast names);
    Ok (dir ++ [name]).

(** A string with a NUL character cannot be handed to the system. *)
Definition has_nul (s : string) : bool :=
  existsb (Ascii.eqb "000") (list_ascii_of_string s).

(** One entry of a zip archive, with the fields the script reads. *)
Record ZipInfo : Type := { filename : string; external_attr : Z }.

(** An opened archive: [infolist()] and [read(name)]. *)
Record ZipFile : Type := {
  infolist : list ZipInfo;
  read : string -> result string }.

Inductive response : Type :=
  | Response (status : Z) (body : string)
  | NoResponse.

(** What the script takes from its surroundings and from libraries whose
    results depend on data it does not inspect. *)
Record Host : Type := {
  (** the working directory of the process, from which the system takes
      relative names *)
  cwd : string;
  (** [os.getcwd()]: the name of that directory, or what the call raises
      (the directory was removed, a parent cannot be read) *)
  getcwd : result string;
  (** the module-level flag set when the platform extension was imported *)
  has_platform : bool;
  (** the hook of the platform extension: its answer, or what it raises *)
  subdirectory_for_variant : string -> string -> result string;
  (** [Path.resolve()] on the host's file system: the resolved path, or
      what the call raises (a loop of links, a name that cannot be read) *)
  resolve : Path -> result Path;
  (** the final answer of the build server for a URL *)
  server : string -> response;
  (** [bytes.decode('utf-8')] *)
  utf8_decode : string -> result string;
  (** [zipfile.ZipFile(src, 'r')] on the bytes of [src] *)
  zip_open : string -> result ZipFile;
  (** [ZipFile.extract(zipinfo, dest)] *)
  zip_extract : ZipFile -> ZipInfo -> string -> FS -> result unit * FS;
  (** [tarfile.open(src, "r:gz").extractall(dest)] on the bytes of [src] *)
  tar_extractall : string -> string -> FS -> result unit * FS }.

(** The calls the script makes to the host, in the order it makes them. *)
Inductive call : Type :=
  | CallRmtree (path : string)
  | CallMakedirs (path : string)
  | CallUrlretrieve (url filename : string)
  | CallSymlink (src dst : string)
  | CallZipOpen (src : string)
  | CallZipExtract (name dest : string)
  | CallTarExtractall (src dest : string).

Record World : Type := {
  fs : FS;
  stdout : list string;
  calls : list call;
  quiet : bool }.

(** State and exceptions: a raised exception keeps the changes made so far. *)
Definition M (A : Type) : Type := World -> result A * World.

Global Instance M_ret : MRet M := fun A a w => (Ok a, w).

Global Instance M_bind : MBind M := fun A B k m w =>
  match m w with
  | (Ok a, w') => k a w'
  | (Raise e, w') => (Raise e, w')
  end.

Definition lift {A : Type} (r : result A) : M A := fun w => (r, w).

(** A call [c] that acts on the file system. *)
Definition with_fs (c : call) (f : FS -> result unit * FS) : M unit := fun w =>
  let '(r, fs') := f (fs w) in
  (r, {| fs := fs'; stdout := stdout w; calls := calls w ++ [c];
         quiet := quiet w |}).

(** [try: body except HTTPError as e: handler(e.code)] *)
Definition try_except_HTTPError {A : Type} (body : M A) (handler : Z -> M A)
    : M A := fun w =>
  match body w with
  | (Raise (HTTPError code), w') => handler code w'
  | other => other
  end.

(** *** The calls of [os], [shutil] and [urllib] on this state *)

Definition is_dir_or_free (fs : FS) (k : list string) : bool :=
  match lookup_node fs k with
  | None | Some Dir => true
  | Some _ => false
  end.

Definition is_dir (fs : FS) (k : list string) : bool :=
  match lookup_node fs k with
  | Some Dir => true
  | _ => false
  end.

(** The non-empty prefixes of a key, the key itself last. *)
Definition ancestors (k : list string) : list (list string) :=
  (fun n => take n k) <$> seq 1 (length k).

Definition rmtree_fs (k : list string) (fs : FS) : result unit * FS :=
  match lookup_node fs k with
  | Some Dir => (Ok tt, filter (fun kv => ¬ k `prefix_of` kv.1) fs)
  | _ => (Raise OSError, fs)
  end.

Definition makedirs_fs (k : list string) (fs : FS) : result unit * FS :=
  match lookup_node fs k with
  | Some _ => (Raise OSError, fs)
  | None =>
      if forallb (is_dir_or_free fs) (ancestors k)
      then (Ok tt, foldr (fun q acc => <[q := Dir]> acc) fs (ancestors k))
      else (Raise OSError, fs)
  end.

Definition write_file_fs (k : list string) (content : string) (fs : FS)
    : result unit * FS :=
  match lookup_node fs (removelast k), lookup_node fs k with
  | Some Dir, None | Some Dir, Some (File _) => (Ok tt, <[k := File content]> fs)
  | _, _ => (Raise OSError, fs)
  end.

(** [os.symlink(target, dst)]: Python refuses a NUL character, the system
    an empty [target], a [dst] whose directory it cannot walk to, and a
    [dst] that is there already, be it a dangling link. *)
Definition symlink_fs (cwd target dst : string) (fs : FS)
    : result unit * FS :=
  if has_nul target || has_nul dst then (Raise ValueError, fs)
  else if String.eqb target "" then (Raise OSError, fs)
  else
    match new_name_place cwd dst fs with
    | Ok k =>
        match lookup_node fs k with
        | None => (Ok tt, <[k := Symlink target]> fs)
        | Some _ => (Raise OSError, fs)
        end
    | Raise e => (Raise e, fs)
    end.

Section Script.

Variable h : Host.

Definition key (path : string) : list string := path_key (cwd h) path.

(** [os.path.exists(path)] *)
Definition os_path_exists (path : string) : M bool := fun w =>
  (Ok (bool_decide (is_Some (lookup_node (fs w) (key path)))), w).

(** [shutil.rmtree(path)] *)
Definition rmtree (path : string) : M unit :=
  with_fs (CallRmtree path) (rmtree_fs (key path)).

(** [os.makedirs(path)] *)
Definition os_makedirs (path : string) : M unit :=
  with_fs (CallMakedirs path) (makedirs_fs (key path)).

(** [os.symlink(src, dst)] *)
Definition os_symlink (src dst : string) : M unit :=
  with_fs (CallSymlink src dst) (symlink_fs (cwd h) src dst).

(** [urllib.request.urlretrieve(url, filename)]: one request; a status
    outside 200..299 raises [HTTPError] before anything is written. *)
Definition urlretrieve (url filename : string) : M unit :=
  with_fs (CallUrlretrieve url filename) (fun fs =>
    match server h url with
    | Response status body =>
        if (200 <=? status)%Z && (status <? 300)%Z
        then write_file_fs (key filename) body fs
        else (Raise (HTTPError status), fs)
    | NoResponse => (Raise URLError, fs)
    end).

(** The bytes of the file at [path]. *)
Definition read_file (path : string) : M string := fun w =>
  match lookup_node (fs w) (key path) with
  | Some (File content) => (Ok content, w)
  | _ => (Raise OSError, w)
  end.

(** [zipfile.ZipFile(src, 'r')] *)
Definition open_zip (src : string) : M ZipFile := fun w =>
  let w' := {| fs := fs w; stdout := stdout w;
               calls := calls w ++ [CallZipOpen src]; quiet := quiet w |} in
  match read_file src w with
  | (Ok data, _) => (zip_open h data, w')
  | (Raise e, _) => (Raise e, w')
  end.

(** [print(msg)] *)
Definition print (msg : string) : M unit := fun w =>
  (Ok tt, {| fs := fs w; stdout := stdout w ++ [msg];
             calls := calls w; quiet := quiet w |}).

Definition set_quiet (q : bool) : M unit := fun w =>
  (Ok tt, {| fs := fs w; stdout := stdout w; calls := calls w;
             quiet := q |}).

Definition conditional_print (msg : string) : M unit := fun w =>
  if quiet w then (Ok tt, w) else print msg w.

(** ** PathResolver *)

Definition calculate_download_path (variant output_base : string)
    : result Path :=
  let output_base_path := parse output_base in
  output_base_path ←
    (if negb (is_absolute output_base_path)
     then here ← getcwd h; Ok (joinpath (parse here) output_base_path)
     else Ok output_base_path);
  variant_pair ← variant_to_pair variant;
  subdirectory ←
    (if has_platform h
     then subdirectory_for_variant h variant_pair.1 variant_pair.2
     else Ok (variant_pair.1 +:+ "/" +:+ variant_pair.2));
  resolve h (joinpath output_base_path (parse subdirectory)).

(** ** ArtifactFetcher *)

(** One turn of the loop of [unzip]. *)
Definition unzip_entry (zip : ZipFile) (dest : string) (zipinfo : ZipInfo)
    : M unit :=
  let SYMLINK_TYPE := 10%Z in
  if (Z.shiftr (external_attr zipinfo) 28 =? SYMLINK_TYPE)%Z then
    data ← lift (read zip (filename zipinfo));
    linkpath ← lift (utf8_decode h data);
    let destpath := os_path_join dest (filename zipinfo) in
    os_symlink linkpath destpath
  else
    with_fs (CallZipExtract (filename zipinfo) dest)
            (zip_extract h zip zipinfo dest).

Fixpoint for_each {A : Type} (l : list A) (body : A -> M unit) : M unit :=
  match l with
  | [] => mret tt
  | x :: l' => body x ;; for_each l' body
  end.

Definition unzip (src dest : string) : M unit :=
  zip ← open_zip src;
  for_each (infolist zip) (unzip_entry zip dest).

(** [with tarfile.open(src, "r:gz") as tar: tar.extractall(dest)] *)
Definition tar_extract (src dest : string) : M unit := fun w =>
  match read_file src w with
  | (Ok data, _) =>
      with_fs (CallTarExtractall src dest) (tar_extractall h data dest) w
  | (Raise e, _) =>
      with_fs (CallTarExtractall src dest) (fun fs => (Raise e, fs)) w
  end.

Definition download_variant (download_folder variant : string)
    (build : option string) (debug : bool) (output_base : string) : M Z :=
  filename ← lift (filename_for_platform variant debug build);
  let download_url := download_folder +:+ "/" +:+ filename in
  download_path ← lift (calculate_download_path variant output_base);
  let download_path := str download_path in
  conditional_print ("--- Downloading " +:+ filename +:+ " to "
                       +:+ download_path +:+ "...");;
  found ← os_path_exists download_path;
  (if found : bool then rmtree download_path else mret tt);;
  os_makedirs download_path;;
  let full_path := download_path +:+ "/" +:+ filename in
  returned ← try_except_HTTPError
    (urlretrieve download_url full_path;; mret None)
    (fun code => print ("!!! Failed: " +:+ pretty code);; mret (Some 1%Z));
  match returned with
  | Some value => mret value
  | None =>
      if String.eqb variant "ios/net" then mret 0%Z
      else
        conditional_print ("--- Extracting " +:+ filename +:+ "...");;
        (if PyStr.endswith filename "tar.gz"
         then tar_extract full_path download_path
         else unzip full_path download_path);;
        mret 0%Z
  end.

End Script.

(** ** The rules of the specification *)

(** [sub] occurs somewhere in [s]. *)
Definition contains (s sub : string) : Prop :=
  exists pre post, s = pre +:+ sub +:+ post.

(** The names VariantSplitter answers without splitting. *)
Definition fixed_name (variant : string) : Prop :=
  variant = "linux" \/ variant = "centos6" \/ variant = "macosx"
  \/ exists rest, variant = "ios" +:+ rest.

(** The same as a test. *)
Definition fixed_test (variant : string) : bool :=
  String.eqb variant "linux" || String.eqb variant "centos6"
  || String.eqb variant "macosx" || PyStr.startswith variant "ios".


(** The naming rules of FilenameResolver. *)
Definition naming_variant (variant : string) : string :=
  if decide (variant = "ios/net") then "ios" else variant.

Definition debug_suffix (debug : bool) : string :=
  if debug then "-debug" else "".

Definition extension (variant : string) : string :=
  if decide (variant = "linux" \/ variant = "centos6") then "tar.gz" else "zip".

Definition edition (segments : list string) : string :=
  if decide (2 < length segments /\ segments !! 2 = Some "EE")
  then "enterprise" else "community".

(** A build descriptor written as its hyphen-delimited segments: at least
    one segment, none of them holding a hyphen. *)
Definition segments_of (build : string) (segments : list string) : Prop :=
  segments <> [] /\ Forall (fun x => ~ contains x "-") segments
  /\ build = PyStr.join "-" segments.

(** The expansion table of VariantExpander. *)
Definition expansion_table : list (string * list string) :=
  [ ("dotnet", ["linux"; "android-x86_64"; "android-x86";
                "android-armeabi-v7a"; "android-arm64-v8a"; "macosx";
                "ios/net"; "windows-win64"; "windows-arm64"]);
    ("android", ["android-x86_64"; "android-x86"; "android-armeabi-v7a";
                 "android-arm64-v8a"]);
    ("java", ["linux"; "macosx"; "windows-win64"]);
    ("windows", ["windows-win64"; "windows-arm64"]);
    ("macos", ["macosx"]) ].

Definition meta_variant (token : string) : Prop :=
  token ∈ expansion_table.*1.

Definition expansion (token : string) : gset string :=
  match list_find (fun row => row.1 = token) expansion_table with
  | Some (_, row) => list_to_set row.2
  | None => {[ token ]}
  end.


(** The base directory of PathResolver: [output_base], taken from the
    current working directory when it is relative; asking for that
    directory can raise. *)
Definition absolute_base (h : Host) (output_base : string) : result Path :=
  if is_absolute (parse output_base) then Ok (parse output_base)
  else here ← getcwd h; Ok (joinpath (parse here) (parse output_base)).

(** The subdirectory of PathResolver: the hook's answer when the platform
    extension is registered, [os/abi] otherwise; the hook can raise. *)
Definition subdirectory (h : Host) (os abi : string) : result string :=
  if has_platform h then subdirectory_for_variant h os abi
  else Ok (os +:+ "/" +:+ abi).

(** The target directory once ArtifactFetcher has prepared it: when it was a
    directory, it and all below it are removed; then it and its missing
    ancestors are created. *)
Definition prepared (k : list string) (fs : FS) : FS :=
  foldr (fun q acc => <[q := Dir]> acc)
        (if is_dir fs k
         then filter (fun kv => ¬ k `prefix_of` kv.1) fs else fs)
        (ancestors k).

(** The calls of that preparation. *)
Definition prepare_calls (k : list string) (fs : FS) (dir : string) : list call :=
  (if is_dir fs k then [CallRmtree dir] else [])
  ++ [CallMakedirs dir].

(** What the first message adds to the output. *)
Definition downloading_message (w : World) (filename dir : string) : list string :=
  if quiet w then []
  else ["--- Downloading " +:+ filename +:+ " to " +:+ dir +:+ "..."].

(** A call that touches an archive. *)
Definition extraction_call (c : call) : bool :=
  match c with
  | CallSymlink _ _ | CallZipOpen _ | CallZipExtract _ _
  | CallTarExtractall _ _ => true
  | _ => false
  end.

Definition request_call (c : call) : bool :=
  match c with
  | CallUrlretrieve _ _ => true
  | _ => false
  end.

(** The part of [download_variant] from the request on, for a file name,
    URL and target directory already computed. *)
Definition fetch_and_extract (h : Host)
    (variant filename download_url download_path : string) : M Z :=
  let full_path := download_path +:+ "/" +:+ filename in
  returned ← try_except_HTTPError
    (urlretrieve h download_url full_path;; mret None)
    (fun code => print ("!!! Failed: " +:+ pretty code);; mret (Some 1%Z));
  match returned with
  | Some value => mret value
  | None =>
      if String.eqb variant "ios/net" then mret 0%Z
      else
        conditional_print ("--- Extracting " +:+ filename +:+ "...");;
        (if PyStr.endswith filename "tar.gz"
         then tar_extract h full_path download_path
         else unzip h full_path download_path);;
        mret 0%Z
  end.

(** The world in which the request is made: the first message printed and
    the target directory prepared. *)
Definition ready_world (h : Host) (w : World) (filename dir : string) : World :=
  {| fs := prepared (key h dir) (fs w);
     stdout := stdout w ++ downloading_message w filename dir;
     calls := calls w ++ prepare_calls (key h dir) (fs w) dir;
     quiet := quiet w |}.

(** The world after the request was made. *)
Definition requested_world (w : World) (url full_path : string) : World :=
  {| fs := fs w; stdout := stdout w;
     calls := calls w ++ [CallUrlretrieve url full_path]; quiet := quiet w |}.

Definition add_output (w : World) (msg : string) : World :=
  {| fs := fs w; stdout := stdout w ++ [msg]; calls := calls w;
     quiet := quiet w |}.

(** The world after the archive was downloaded, the file system then being
    [fs']. *)
Definition fetched_world (w : World) (url full_path : string) (fs' : FS)
    : World :=
  {| fs := fs'; stdout := stdout w;
     calls := calls w ++ [CallUrlretrieve url full_path]; quiet := quiet w |}.

(** Whether a status is in 200..299. *)
Definition is_2xx (status : Z) : Prop := (200 <= status < 300)%Z.

(** *** Hosts and worlds for the examples *)

(** An archive with one symbolic link, [libfoo.so -> ../lib/foo.so], and
    one regular file. *)
Definition example_zip : ZipFile :=
  {| infolist :=
       [ {| filename := "libfoo.so"; external_attr := 0xA1FF0000 |};
         {| filename := "readme.txt"; external_attr := 0x81A40000 |} ];
     read := fun name =>
       if String.eqb name "libfoo.so" then Ok "../lib/foo.so"
       else if String.eqb name "readme.txt" then Ok "hello"
       else Raise OSError |}.

(** A host with no platform extension and no symbolic links on its paths,
    whose server answers every request with [status]. *)
Definition example_host (status : Z) : Host :=
  {| cwd := "/work";
     getcwd := Ok "/work";
     has_platform := false;
     subdirectory_for_variant := fun os abi => Ok os;
     resolve := fun p => Ok p;
     server := fun url => Response status "PK";
     utf8_decode := fun data => Ok data;
     zip_open := fun data => Ok example_zip;
     zip_extract := fun zip zipinfo dest fs =>
       match read zip (filename zipinfo) with
       | Ok data =>
           write_file_fs
             (path_key "/work" (os_path_join dest (filename zipinfo))) data fs
       | Raise e => (Raise e, fs)
       end;
     tar_extractall := fun data dest fs => (Ok tt, fs) |}.

(** A world in which the target directory of [windows-win64] under [/out]
    exists and holds a file from an earlier run. *)
Definition example_world : World :=
  {| fs := list_to_map
       [ (["out"], Dir); (["out"; "windows"], Dir);
         (["out"; "windows"; "x86_64"], Dir);
         (["out"; "windows"; "x86_64"; "old.dll"], File "old") ];
     stdout := [];
     calls := [];
     quiet := false |}.


(** ** The rest of the script *)

(** The platform names the script accepts. *)
Definition VALID_PLATFORMS : list string :=
  ["android"; "android-x86_64"; "android-x86"; "android-armeabi-v7a";
   "android-arm64-v8a"; "centos6"; "dotnet"; "java"; "linux"; "macos";
   "macosx"; "ios"; "ios/net"; "windows"; "windows-arm64"; "windows-win64"].

(** [s.ljust(width, fill)] *)
Definition ljust (s : string) (width : nat) (fill : ascii) : string :=
  s +:+ string_of_list_ascii (replicate (width - PyStr.len s) fill).

(** [urllib.request.urlopen(url)], opened and closed again: a status
    outside 200..299 raises [HTTPError]; nothing is stored.  The log of
    calls keeps what acts on the file system or fetches a file, so this
    request is not in it. *)
Definition urlopen (h : Host) (url : string) : M unit := fun w =>
  match server h url with
  | Response status _ =>
      if (200 <=? status)%Z && (status <? 300)%Z then (Ok tt, w)
      else (Raise (HTTPError status), w)
  | NoResponse => (Raise URLError, w)
  end.

(** The dry run.  [stdout] takes the text of each [print] in order; the
    first one is written with [end=''], so the status that follows stands on
    the same line. *)
Definition check_variant (h : Host) (download_folder variant : string)
    (build : option string) (debug : bool) (output_base : string) : M Z :=
  filename ← lift (filename_for_platform variant debug build);
  let failed_count := 0%Z in
  let download_url := download_folder +:+ "/" +:+ filename in
  download_path ← lift (calculate_download_path h variant output_base);
  print (ljust ("--- Checking " +:+ filename) 80 ".");;
  failed_count ← try_except_HTTPError
    (urlopen h download_url;; print "200";; mret failed_count)
    (fun code => print (pretty code);; mret 1%Z);
  print (String "009" "Download path: " +:+ str download_path);;
  mret failed_count.

(** *** Notions used to state what the script does *)

Definition is_ok {A : Type} (r : result A) : bool :=
  match r with
  | Ok _ => true
  | Raise _ => false
  end.

(** A single path component that [pathlib] keeps. *)
Definition plain (x : string) : Prop :=
  x <> "" /\ x <> "." /\ ~ contains x "/".

Fixpoint last_char (s : string) : option ascii :=
  match s with
  | EmptyString => None
  | String a EmptyString => Some a
  | String _ s' => last_char s'
  end.

(** What the dry run prints for an answer with [status]. *)
Definition check_output (filename : string) (path : Path) (status : Z)
    : list string :=
  [ ljust ("--- Checking " +:+ filename) 80 ".";
    (if (200 <=? status)%Z && (status <? 300)%Z then "200" else pretty status);
    String "009" "Download path: " +:+ str path ].

(** A computation that, in quiet mode, prints nothing and stays quiet. *)
Definition quiet_silent {A : Type} (m : M A) : Prop :=
  forall w r w',
    quiet w = true -> m w = (r, w') ->
    stdout w' = stdout w /\ quiet w' = true.

(** A computation that, in quiet mode, either prints nothing and does not
    return 1, or returns 1 after printing one line, the report of an HTTP
    failure with a status for which [P] holds. *)
Definition reports_only_failure (P : Z -> Prop) (m : M Z) : Prop :=
  forall w r w',
    quiet w = true -> m w = (r, w') ->
    (r <> Ok 1%Z /\ stdout w' = stdout w)
    \/ exists code : Z,
         P code /\ r = Ok 1%Z
         /\ stdout w' = stdout w ++ ["!!! Failed: " +:+ pretty code].

(** The status [code] is what the server answers for [url], and is outside
    200..299. *)
Definition refused (h : Host) (url : string) (code : Z) : Prop :=
  (exists body, server h url = Response code body)
  /\ ~ (200 <= code < 300)%Z.

(** A host whose build server cannot be reached. *)
Definition offline_host : Host :=
  {| cwd := "/work";
     getcwd := Ok "/work";
     has_platform := false;
     subdirectory_for_variant := fun os abi => Ok os;
     resolve := fun p => Ok p;
     server := fun url => NoResponse;
     utf8_decode := fun data => Ok data;
     zip_open := fun data => Raise BadZipFile;
     zip_extract := fun zip zipinfo dest fs => (Ok tt, fs);
     tar_extractall := fun data dest fs => (Ok tt, fs) |}.

(** The example world in quiet mode. *)
Definition quiet_world : World :=
  {| fs := fs example_world; stdout := []; calls := []; quiet := true |}.

(** The world of the extraction example after an earlier run has left a
    file where the archive's link goes. *)
Definition occupied_unzip_world : World :=
  {| fs := list_to_map
       [ (["a.zip"], File "PK"); (["d"], Dir);
         (["d"; "libfoo.so"], File "old") ];
     stdout := [];
     calls := [];
     quiet := false |}.

(** An archive whose symbolic link has an absolute name. *)
Definition absolute_link_zip : ZipFile :=
  {| infolist := [ {| filename := "/etc/libfoo.so"; external_attr := 0xA1FF0000 |} ];
     read := fun name => Ok "/tmp/target" |}.

(** A world with the directory [/etc] beside the extraction directory. *)
Definition etc_world : World :=
  {| fs := list_to_map [ (["d"], Dir); (["etc"], Dir) ];
     stdout := [];
     calls := [];
     quiet := false |}.

(** A host on which [/out] is a symbolic link to [/mnt/out] and whose
    working directory has been removed. *)
Definition linked_host : Host :=
  {| cwd := "/work";
     getcwd := Raise OSError;
     has_platform := false;
     subdirectory_for_variant := fun os abi => Ok os;
     resolve := fun p =>
       match parts p with
       | "out" :: rest => Ok {| root := "/"; parts := "mnt" :: "out" :: rest |}
       | _ => Ok p
       end;
     server := fun url => Response 200 "PK";
     utf8_decode := fun data => Ok data;
     zip_open := fun data => Raise BadZipFile;
     zip_extract := fun zip zipinfo dest fs => (Ok tt, fs);
     tar_extractall := fun data dest fs => (Ok tt, fs) |}.

(** The link [target] can be made at the name [dst]: neither holds a NUL
    character, the target is not empty, the system finds the directory of
    the name, and the place [k] of the name there is free. *)
Definition link_place (h : Host) (fs : FS) (target dst : string)
    (k : list string) : Prop :=
  target <> "" /\ has_nul target = false /\ has_nul dst = false
  /\ new_name_place (cwd h) dst fs = Ok k /\ lookup_node fs k = None.

(** The host [h] with every archive opening as [zip]. *)
Definition with_zip (h : Host) (zip : result ZipFile) : Host :=
  {| cwd := cwd h;
     getcwd := getcwd h;
     has_platform := has_platform h;
     subdirectory_for_variant := subdirectory_for_variant h;
     resolve := resolve h;
     server := server h;
     utf8_decode := utf8_decode h;
     zip_open := fun data => zip;
     zip_extract := zip_extract h;
     tar_extractall := tar_extractall h |}.



(** * Theorems *)

(** ** Strings *)

Section StringFacts.

Implicit Types s p sub pre post : string.

Lemma append_assoc s1 s2 s3 : (s1 +:+ s2) +:+ s3 = s1 +:+ s2 +:+ s3.
Proof. induction s1 as [|a s1 IH]; simpl; congruence. Qed.

Lemma append_empty_r s : s +:+ "" = s.
Proof. induction s as [|a s IH]; simpl; congruence. Qed.

Lemma append_length s1 s2 :
  String.length (s1 +:+ s2) = String.length s1 + String.length s2.
Proof. induction s1 as [|a s1 IH]; simpl; congruence. Qed.

Lemma startswith_spec s p :
  PyStr.startswith s p = true <-> exists rest, s = p +:+ rest.
Proof.
  revert s. induction p as [|a p IH]; intros s; simpl.
  - split; [intros _; by exists s | done].
  - destruct s as [|b s]; [split; [done | intros [rest Hr]; discriminate] |].
    destruct (Ascii.eqb_spec a b) as [->|Hne].
    + rewrite IH. split; intros [rest Hr]; exists rest; [by rewrite Hr | congruence].
    + split; [done | intros [rest Hr]; congruence].
Qed.

Lemma startswith_append s rest : PyStr.startswith (s +:+ rest) s = true.
Proof. apply startswith_spec. by exists rest. Qed.

Lemma find_opt_Some_contains s sub i :
  PyStr.find_opt s sub = Some i -> contains s sub.
Proof.
  revert i. induction s as [|a s IH]; intros i; simpl.
  - destruct (PyStr.startswith "" sub) eqn:Hs; [|done].
    intros _. apply startswith_spec in Hs as [rest Hr]. by exists "", rest.
  - destruct (PyStr.startswith (String a s) sub) eqn:Hs.
    + intros _. apply startswith_spec in Hs as [rest Hr]. by exists "", rest.
    + destruct (PyStr.find_opt s sub) as [j|] eqn:Hj; [|done].
      intros _. destruct (IH j eq_refl) as (pre & post & ->).
      by exists (String a pre), post.
Qed.

Lemma contains_find_opt s sub :
  contains s sub -> exists i, PyStr.find_opt s sub = Some i.
Proof.
  intros (pre & post & ->). induction pre as [|a pre IH]; simpl.
  - destruct (sub +:+ post) eqn:E; simpl.
    + assert (Hs : PyStr.startswith "" sub = true)
        by (rewrite <- E; apply startswith_append).
      rewrite Hs. by exists 0.
    + assert (Hs : PyStr.startswith (String a s) sub = true)
        by (rewrite <- E; apply startswith_append).
      rewrite Hs. by exists 0.
  - destruct IH as [i Hi]. rewrite Hi. simpl.
    destruct (PyStr.startswith _ sub); eauto.
Qed.

Lemma find_opt_None s sub :
  PyStr.find_opt s sub = None <-> ~ contains s sub.
Proof.
  split.
  - intros Hn Hc. apply contains_find_opt in Hc as [i Hi]. congruence.
  - intros Hc. destruct (PyStr.find_opt s sub) eqn:E; [|done].
    destruct Hc. by eapply find_opt_Some_contains.
Qed.

Lemma find_absent s sub :
  (PyStr.find s sub =? -1)%Z = true <-> ~ contains s sub.
Proof.
  rewrite <- find_opt_None. unfold PyStr.find.
  destruct (PyStr.find_opt s sub); split; intros H; try done.
  apply Z.eqb_eq in H. lia.
Qed.

Lemma not_contains_cons a s sub :
  ~ contains (String a s) sub -> ~ contains s sub.
Proof. intros Hn (pre & post & ->). apply Hn. by exists (String a pre), post. Qed.

Lemma slice_to_append s rest : PyStr.slice_to (String.length s) (s +:+ rest) = s.
Proof.
  induction s as [|a s IH]; simpl; [by destruct rest | by rewrite IH].
Qed.

Lemma slice_from_append s rest :
  PyStr.slice_from (String.length s) (s +:+ rest) = rest.
Proof. induction s as [|a s IH]; simpl; [by destruct rest | done]. Qed.

(** The first dash of [osname-abi] is the one written, when [osname] holds
    none. *)
Lemma find_first_dash osname abi :
  ~ contains osname "-" ->
  PyStr.find_opt (osname +:+ "-" +:+ abi) "-" = Some (String.length osname).
Proof.
  induction osname as [|a osname IH]; intros Hn; [done|].
  assert (Ha : Ascii.eqb "-" a = false).
  { apply Ascii.eqb_neq. intros <-. apply Hn. by exists "", osname. }
  simpl in *. rewrite Ha.
  rewrite IH by (by eapply not_contains_cons). done.
Qed.

(** Conversely, the position found splits the string at a dash, with none
    before it. *)
Lemma find_dash_split s i :
  PyStr.find_opt s "-" = Some i ->
  s = PyStr.slice_to i s +:+ "-" +:+ PyStr.slice_from (i + 1) s
  /\ ~ contains (PyStr.slice_to i s) "-"
  /\ String.length (PyStr.slice_to i s) = i.
Proof.
  revert i. induction s as [|a s IH]; intros i; [done|].
  cbn [PyStr.find_opt PyStr.startswith].
  destruct (Ascii.eqb_spec "-" a) as [<-|Hne].
  - intros [= <-]. simpl. split_and!; [done | | done].
    intros (pre & post & E). by destruct pre.
  - destruct (PyStr.find_opt s "-") as [j|] eqn:Hj; [|done].
    intros [= <-]. destruct (IH j eq_refl) as (E & Hn & Hl).
    cbn [PyStr.slice_to PyStr.slice_from Nat.add String.append String.length].
    split_and!; [f_equal; exact E | | by rewrite Hl].
    intros (pre & post & E'). destruct pre as [|b pre]; simplify_eq/=.
    apply Hn. by exists pre, post.
Qed.

End StringFacts.

(** ** VariantSplitter *)

Section VariantSplitter.

Lemma slice_from_append_add s n rest :
  PyStr.slice_from (String.length s + n) (s +:+ rest) = PyStr.slice_from n rest.
Proof. induction s as [|a s IH]; simpl; [done | exact IH]. Qed.

Lemma fixed_test_spec variant : fixed_test variant = true <-> fixed_name variant.
Proof.
  unfold fixed_test, fixed_name.
  rewrite !orb_true_iff, !String.eqb_eq, startswith_spec. tauto.
Qed.

Lemma not_fixed_tests variant :
  ~ fixed_name variant ->
  String.eqb variant "linux" || String.eqb variant "centos6" = false
  /\ String.eqb variant "macosx" = false
  /\ PyStr.startswith variant "ios" = false.
Proof.
  rewrite <- fixed_test_spec. unfold fixed_test. intros Hn.
  destruct (String.eqb variant "linux"), (String.eqb variant "centos6"),
    (String.eqb variant "macosx"), (PyStr.startswith variant "ios");
    simpl in *; try done.
Qed.

(** What the code answers for a name already written as [osname-abi]. *)
Lemma variant_to_pair_dash osname abi :
  ~ fixed_name (osname +:+ "-" +:+ abi) -> ~ contains osname "-" ->
  variant_to_pair (osname +:+ "-" +:+ abi)
  = Ok (if String.eqb osname "android" then (osname, abi)
        else if negb (PyStr.find abi "win64" =? -1)%Z
             then ("windows", PyStr.replace abi "win64" "x86_64")
             else (osname, abi)).
Proof.
  intros Hf Hd. unfold variant_to_pair.
  destruct (not_fixed_tests _ Hf) as (-> & -> & ->).
  unfold PyStr.index. rewrite find_first_dash by done.
  cbn [mbind result_bind].
  rewrite slice_to_append, slice_from_append_add. simpl PyStr.slice_from.
  by repeat case_match.
Qed.

(** What the code answers for a name with no dash that is not fixed. *)
Lemma variant_to_pair_no_dash variant :
  ~ fixed_name variant -> ~ contains variant "-" ->
  variant_to_pair variant = Raise ValueError.
Proof.
  intros Hf Hd. unfold variant_to_pair.
  destruct (not_fixed_tests _ Hf) as (-> & -> & ->).
  unfold PyStr.index. by rewrite (proj2 (find_opt_None _ _) Hd).
Qed.

Lemma variant_to_pair_fixed variant :
  fixed_name variant -> exists r, variant_to_pair variant = Ok r.
Proof.
  intros Hf. apply fixed_test_spec in Hf. unfold fixed_test in Hf.
  unfold variant_to_pair.
  destruct (String.eqb variant "linux" || String.eqb variant "centos6");
    [eauto|].
  destruct (String.eqb variant "macosx"); [eauto|].
  destruct (PyStr.startswith variant "ios"); [eauto | done].
Qed.

(** Every name is fixed, or splits at its first dash, or has no dash. *)
Lemma variant_cases variant :
  fixed_name variant
  \/ (~ fixed_name variant /\ ~ contains variant "-")
  \/ (~ fixed_name variant /\ exists osname abi,
        variant = osname +:+ "-" +:+ abi /\ ~ contains osname "-").
Proof.
  destruct (fixed_test variant) eqn:Hf.
  - left. by apply fixed_test_spec.
  - assert (Hn : ~ fixed_name variant)
      by (rewrite <- fixed_test_spec; congruence).
    right. destruct (PyStr.find_opt variant "-") as [i|] eqn:Hi.
    + right. split; [done|]. apply find_dash_split in Hi as (E & Hd & _).
      eauto.
    + left. split; [done|]. by apply find_opt_None.
Qed.

End VariantSplitter.


(** C6: [variant_to_pair] raises (Python's [ValueError], the
    specification's InvalidVariant) exactly when the variant holds no dash
    and is none of the fixed names; on every other variant it answers. *)
Theorem variant_to_pair_invalid_variant (variant : string) :
  (variant_to_pair variant = Raise ValueError
   <-> ~ contains variant "-" /\ ~ fixed_name variant)
  /\ (succeeds (variant_to_pair variant)
      <-> ~ (~ contains variant "-" /\ ~ fixed_name variant)).
Proof.
  destruct (variant_cases variant)
    as [Hf | [[Hf Hd] | [Hf (osname & abi & E & Hd)]]].
  - destruct (variant_to_pair_fixed _ Hf) as [r Hr]. rewrite Hr.
    split; split; try tauto; try done. intros _. by exists r.
  - rewrite variant_to_pair_no_dash by done.
    split; split; try tauto. by intros [r Hr].
  - assert (Hc : contains variant "-") by (by exists osname, abi).
    subst variant. rewrite variant_to_pair_dash by done.
    split; split; try tauto; try done. intros _. by eexists.
Qed.

(** ** FilenameResolver *)

Section FilenameResolver.

Implicit Types s x build : string.

Lemma eqb_bool_decide s1 s2 : String.eqb s1 s2 = bool_decide (s1 = s2).
Proof.
  destruct (String.eqb_spec s1 s2);
    [by rewrite bool_decide_eq_true_2 | by rewrite bool_decide_eq_false_2].
Qed.

Lemma split_from_cons a s :
  PyStr.split_from 0 (String a s) "-"
  = if Ascii.eqb "-" a then "" :: PyStr.split_from 0 s "-"
    else match PyStr.split_from 0 s "-" with
         | piece :: pieces => String a piece :: pieces
         | [] => [String a ""]
         end.
Proof.
  cbn [PyStr.split_from PyStr.startswith String.length Nat.sub].
  by destruct (Ascii.eqb "-" a).
Qed.

Lemma split_from_nonempty s : PyStr.split_from 0 s "-" <> [].
Proof.
  destruct s as [|a s]; [done|]. rewrite split_from_cons.
  destruct (Ascii.eqb "-" a); [done|].
  by destruct (PyStr.split_from 0 s "-").
Qed.

Lemma dash_free_cons a x :
  ~ contains (String a x) "-" -> Ascii.eqb "-" a = false /\ ~ contains x "-".
Proof.
  intros Hn. split; [|by eapply not_contains_cons].
  apply Ascii.eqb_neq. intros <-. apply Hn. by exists "", x.
Qed.

Lemma dash_free_empty : ~ contains "" "-".
Proof. intros (pre & post & E). by destruct pre. Qed.

(** A piece with no dash is one segment. *)
Lemma split_dash_free x : ~ contains x "-" -> PyStr.split x "-" = [x].
Proof.
  unfold PyStr.split. induction x as [|a x IH]; intros Hn; [done|].
  apply dash_free_cons in Hn as [Ha Hx].
  by rewrite split_from_cons, Ha, IH.
Qed.

(** A piece with no dash, a dash, and the rest: the piece is the first
    segment. *)
Lemma split_append x rest :
  ~ contains x "-" ->
  PyStr.split (x +:+ "-" +:+ rest) "-" = x :: PyStr.split rest "-".
Proof.
  unfold PyStr.split. induction x as [|a x IH]; intros Hn.
  - change ("" +:+ "-" +:+ rest) with (String "-" rest).
    by rewrite split_from_cons.
  - apply dash_free_cons in Hn as [Ha Hx].
    change (String a x +:+ "-" +:+ rest) with (String a (x +:+ "-" +:+ rest)).
    by rewrite split_from_cons, Ha, IH.
Qed.

Lemma split_join segments :
  segments <> [] -> Forall (fun x => ~ contains x "-") segments ->
  PyStr.split (PyStr.join "-" segments) "-" = segments.
Proof.
  intros Hne Hall. induction Hall as [|x l Hx Hl IH]; [done|].
  destruct l as [|y l].
  - by apply split_dash_free.
  - change (PyStr.join "-" (x :: y :: l))
      with (x +:+ "-" +:+ PyStr.join "-" (y :: l)).
    rewrite split_append by done. f_equal. by apply IH.
Qed.

Lemma join_cons_char a x l :
  PyStr.join "-" (String a x :: l) = String a (PyStr.join "-" (x :: l)).
Proof. by destruct l. Qed.

Lemma join_split s : PyStr.join "-" (PyStr.split s "-") = s.
Proof.
  unfold PyStr.split. induction s as [|a s IH]; [done|].
  rewrite split_from_cons. pose proof (split_from_nonempty s) as Hne.
  destruct (PyStr.split_from 0 s "-") as [|p ps] eqn:E; [done|].
  destruct (Ascii.eqb_spec "-" a) as [<-|_].
  - change (PyStr.join "-" ("" :: p :: ps))
      with (String "-" (PyStr.join "-" (p :: ps))).
    by rewrite IH.
  - by rewrite join_cons_char, IH.
Qed.

Lemma split_pieces_dash_free s :
  Forall (fun x => ~ contains x "-") (PyStr.split s "-").
Proof.
  unfold PyStr.split. induction s as [|a s IH].
  - constructor; [apply dash_free_empty | done].
  - rewrite split_from_cons. destruct (Ascii.eqb_spec "-" a) as [<-|Hne].
    + constructor; [apply dash_free_empty | done].
    + pose proof (split_from_nonempty s) as Hs.
      destruct (PyStr.split_from 0 s "-") as [|p ps] eqn:E; [done|].
      inversion_clear IH as [|? ? Hp Hps]. constructor; [|done].
      intros (pre & post & E'). destruct pre as [|b pre]; simplify_eq/=.
      apply Hp. by exists pre, post.
Qed.

(** The segments of a build descriptor are what [split] computes. *)
Lemma segments_of_split build segments :
  segments_of build segments <-> segments = PyStr.split build "-".
Proof.
  split.
  - intros (Hne & Hall & ->). by rewrite split_join.
  - intros ->. split_and!.
    + apply split_from_nonempty.
    + apply split_pieces_dash_free.
    + by rewrite join_split.
Qed.

(** The name the code uses and its extension follow the naming rules. *)
Lemma naming_rules variant :
  (if String.eqb variant "ios/net" then "ios" else variant)
  = naming_variant variant
  /\ (if String.eqb (naming_variant variant) "linux"
         || String.eqb (naming_variant variant) "centos6"
      then "tar.gz" else "zip") = extension variant.
Proof.
  unfold naming_variant, extension. rewrite eqb_bool_decide.
  destruct (decide (variant = "ios/net")) as [->|Hne].
  - by rewrite bool_decide_eq_true_2.
  - rewrite bool_decide_eq_false_2 by done. split; [done|].
    rewrite !eqb_bool_decide.
    destruct (decide (variant = "linux" \/ variant = "centos6")) as [[->| ->]|Hn];
      [done..|].
    rewrite !bool_decide_eq_false_2; [done|tauto..].
Qed.

Lemma edition_rule seg0 seg1 rest :
  (if 2 <? length (seg0 :: seg1 :: rest)
   then part2 ← PyStr.getitem (seg0 :: seg1 :: rest) 2;
        Ok (if String.eqb part2 "EE" then "enterprise" else "community")
   else Ok "community")
  = Ok (edition (seg0 :: seg1 :: rest)).
Proof.
  unfold edition. destruct rest as [|part2 rest]; simpl; [done|].
  - rewrite eqb_bool_decide. destruct (decide (part2 = "EE")) as [->|Hne].
    + rewrite decide_True; [done | split; [lia | done]].
    + rewrite bool_decide_eq_false_2 by done.
      rewrite decide_False; [done | intros [_ [=]]; done].
Qed.

(** The name computed for a build of at least two segments. *)
Lemma filename_with_build variant debug build seg0 seg1 rest :
  segments_of build (seg0 :: seg1 :: rest) ->
  filename_for_platform variant debug (Some build)
  = Ok ("couchbase-lite-core-" +:+ edition (seg0 :: seg1 :: rest)
          +:+ "-" +:+ seg0 +:+ "-" +:+ seg1 +:+ "-"
          +:+ naming_variant variant +:+ debug_suffix debug
          +:+ "." +:+ extension variant).
Proof.
  intros Hseg. apply segments_of_split in Hseg.
  destruct (naming_rules variant) as [Hname Hext].
  unfold filename_for_platform. cbv zeta. rewrite Hname, Hext, <- Hseg.
  by rewrite edition_rule.
Qed.

End FilenameResolver.

(** C2: for every variant and debug flag, without a build the file name is
    [couchbase-lite-core-{variant}{debug_suffix}.{ext}], and with a build
    of segments [seg0-seg1-...] it is
    [couchbase-lite-core-{edition}-{seg0}-{seg1}-{variant}{debug_suffix}.{ext}],
    where ["ios/net"] is named ["ios"], the suffix is ["-debug"] exactly
    when debug is set, the extension is ["tar.gz"] exactly for linux and
    centos6, and the edition is enterprise exactly when there are more than
    two segments and the third is ["EE"]; the three examples hold. *)
Theorem filename_for_platform_rules (variant : string) (debug : bool) :
  filename_for_platform variant debug None
  = Ok ("couchbase-lite-core-" +:+ naming_variant variant
          +:+ debug_suffix debug +:+ "." +:+ extension variant)
  /\ (forall build seg0 seg1 rest,
        segments_of build (seg0 :: seg1 :: rest) ->
        filename_for_platform variant debug (Some build)
        = Ok ("couchbase-lite-core-" +:+ edition (seg0 :: seg1 :: rest)
                +:+ "-" +:+ seg0 +:+ "-" +:+ seg1 +:+ "-"
                +:+ naming_variant variant +:+ debug_suffix debug
                +:+ "." +:+ extension variant))
  /\ (debug_suffix debug = "-debug" <-> debug = true)
  /\ (extension variant = "tar.gz" <-> variant = "linux" \/ variant = "centos6")
  /\ (extension variant = "zip" <-> ~ (variant = "linux" \/ variant = "centos6"))
  /\ filename_for_platform "windows-win64" false None
     = Ok "couchbase-lite-core-windows-win64.zip"
  /\ filename_for_platform "linux" true (Some "3.1.0-97-EE")
     = Ok "couchbase-lite-core-enterprise-3.1.0-97-linux-debug.tar.gz"
  /\ filename_for_platform "macosx" false (Some "3.1.0-97")
     = Ok "couchbase-lite-core-community-3.1.0-97-macosx.zip".
Proof.
  destruct (naming_rules variant) as [Hname Hext].
  split_and!; try reflexivity.
  - unfold filename_for_platform. cbv zeta. by rewrite Hname, Hext.
  - intros build seg0 seg1 rest Hseg. by apply filename_with_build.
  - by destruct debug.
  - unfold extension. case_decide; naive_solver.
  - unfold extension. case_decide; naive_solver.
Qed.

Lemma filename_for_platform_rules_witness :
  segments_of "3.1.0-97-EE" ["3.1.0"; "97"; "EE"]
  /\ filename_for_platform "linux" true (Some "3.1.0-97-EE")
     = Ok ("couchbase-lite-core-" +:+ edition ["3.1.0"; "97"; "EE"]
             +:+ "-" +:+ "3.1.0" +:+ "-" +:+ "97" +:+ "-"
             +:+ naming_variant "linux" +:+ debug_suffix true
             +:+ "." +:+ extension "linux").
Proof.
  assert (H : segments_of "3.1.0-97-EE" ["3.1.0"; "97"; "EE"])
    by (apply segments_of_split; reflexivity).
  split; [exact H|].
  exact (proj1 (proj2 (filename_for_platform_rules "linux" true)) _ _ _ _ H).
Defined.

(** C5: for every variant and debug flag, a build with fewer than two
    hyphen-delimited segments makes [filename_for_platform] raise (Python's
    [IndexError], the specification's MalformedBuildDescriptor), and with
    two or more segments it returns a name. *)
Theorem filename_for_platform_malformed_build
    (variant : string) (debug : bool) (build : string)
    (segments : list string) :
  segments_of build segments ->
  (length segments < 2 ->
   filename_for_platform variant debug (Some build) = Raise IndexError)
  /\ (2 <= length segments ->
      succeeds (filename_for_platform variant debug (Some build))).
Proof.
  intros Hseg. split.
  - intros Hlen. apply segments_of_split in Hseg as Hs.
    destruct Hseg as (Hne & _ & _).
    destruct segments as [|seg0 [|seg1 rest]]; [done | | simpl in Hlen; lia].
    unfold filename_for_platform. cbv zeta. by rewrite <- Hs.
  - intros Hlen. destruct segments as [|seg0 [|seg1 rest]];
      [simpl in Hlen; lia.. |].
    rewrite (filename_with_build _ _ _ _ _ _ Hseg). by eexists.
Qed.

Lemma filename_for_platform_malformed_build_witness :
  segments_of "3.1.0" ["3.1.0"]
  /\ filename_for_platform "macosx" false (Some "3.1.0") = Raise IndexError.
Proof.
  assert (H : segments_of "3.1.0" ["3.1.0"])
    by (apply segments_of_split; reflexivity).
  split; [exact H|].
  apply (filename_for_platform_malformed_build "macosx" false _ _ H).
  simpl. lia.
Defined.

(** ** VariantExpander *)

Section VariantExpander.

Implicit Types (token x : string) (original order : list string).

Lemma meta_variant_cases token :
  meta_variant token <->
  token = "dotnet" \/ token = "android" \/ token = "java"
  \/ token = "windows" \/ token = "macos".
Proof. unfold meta_variant. simpl. rewrite !elem_of_cons, elem_of_nil. tauto. Qed.

(** A token outside the table expands to itself. *)
Lemma expansion_other token : ~ meta_variant token -> expansion token = {[ token ]}.
Proof.
  intros Hn. unfold expansion.
  assert (H : list_find (fun row : string * list string => row.1 = token)
                expansion_table = None); [|by rewrite H].
  apply list_find_None. rewrite meta_variant_cases in Hn.
  unfold expansion_table.
  repeat (constructor; [simpl; intros <-; tauto|]). constructor.
Qed.

(** One turn of the loop adds the token's row of the table. *)
Lemma calculate_variants_step_expansion (acc : gset string) token :
  calculate_variants_step acc token = acc ∪ expansion token.
Proof.
  unfold calculate_variants_step.
  destruct (String.eqb_spec token "dotnet") as [->|H1];
    [f_equal; set_solver|].
  destruct (String.eqb_spec token "android") as [->|H2];
    [f_equal; set_solver|].
  destruct (String.eqb_spec token "java") as [->|H3];
    [f_equal; set_solver|].
  destruct (String.eqb_spec token "windows") as [->|H4];
    [f_equal; set_solver|].
  destruct (String.eqb_spec token "macos") as [->|H5];
    [f_equal; set_solver|].
  rewrite expansion_other; [done|]. rewrite meta_variant_cases. tauto.
Qed.

Lemma foldl_calculate_variants_step (acc : gset string) original :
  foldl calculate_variants_step acc original
  = acc ∪ ⋃ (expansion <$> original).
Proof.
  revert acc. induction original as [|v l IH]; intros acc; simpl.
  - set_solver.
  - rewrite IH, calculate_variants_step_expansion. set_solver.
Qed.

Lemma calculate_variants_union original :
  calculate_variants original = ⋃ (expansion <$> original).
Proof.
  unfold calculate_variants. rewrite foldl_calculate_variants_step. set_solver.
Qed.

Lemma elem_of_calculate_variants original x :
  x ∈ calculate_variants original
  <-> exists token, token ∈ original /\ x ∈ expansion token.
Proof.
  rewrite calculate_variants_union, elem_of_union_list. split.
  - intros (X & HX & Hx). apply list_elem_of_fmap in HX as (token & -> & Ht).
    eauto.
  - intros (token & Ht & Hx). exists (expansion token). split; [|done].
    apply list_elem_of_fmap. eauto.
Qed.

(** No row of the table holds a token that is itself expanded. *)
Lemma expansion_not_meta token x : x ∈ expansion token -> ~ meta_variant x.
Proof.
  destruct (decide (meta_variant token)) as [Hm|Hm].
  - apply meta_variant_cases in Hm.
    rewrite meta_variant_cases.
    destruct Hm as [-> | [-> | [-> | [-> | ->]]]];
      intros Hx; unfold expansion in Hx;
      vm_compute (list_find _ _) in Hx; simpl in Hx;
      set_unfold in Hx; intros Hy; naive_solver.
  - rewrite expansion_other by done. intros ->%elem_of_singleton. done.
Qed.

Lemma calculate_variants_not_meta original x :
  x ∈ calculate_variants original -> ~ meta_variant x.
Proof.
  intros (token & _ & Hx)%elem_of_calculate_variants.
  by eapply expansion_not_meta.
Qed.

(** Expanding a list of tokens that are not expanded gives the same set. *)
Lemma calculate_variants_fixed order :
  Forall (fun x => ~ meta_variant x) order ->
  calculate_variants order = list_to_set order.
Proof.
  intros Hall. apply set_eq. intros x.
  rewrite elem_of_calculate_variants, elem_of_list_to_set. split.
  - intros (token & Ht & Hx). rewrite Forall_forall in Hall.
    rewrite expansion_other in Hx by auto. by apply elem_of_singleton in Hx as ->.
  - intros Hx. exists x. split; [done|]. rewrite Forall_forall in Hall.
    rewrite expansion_other by auto. by apply elem_of_singleton.
Qed.

End VariantExpander.

(** C3: [calculate_variants] returns the union, over the tokens it is given,
    of each token's row of the expansion table; a token outside the table
    passes through unchanged, nothing raises, and duplicates collapse: the
    result depends only on which tokens occur.  Expanding ["dotnet"] gives
    exactly nine variants, ["dotnet"] not among them. *)
Theorem calculate_variants_expansion :
  (forall original : list string,
     calculate_variants original = ⋃ (expansion <$> original))
  /\ (forall (original : list string) (x : string),
        x ∈ calculate_variants original
        <-> exists token, token ∈ original /\ x ∈ expansion token)
  /\ expansion "dotnet"
     = {[ "linux"; "android-x86_64"; "android-x86"; "android-armeabi-v7a";
          "android-arm64-v8a"; "macosx"; "ios/net"; "windows-win64";
          "windows-arm64" ]}
  /\ expansion "android"
     = {[ "android-x86_64"; "android-x86"; "android-armeabi-v7a";
          "android-arm64-v8a" ]}
  /\ expansion "java" = {[ "linux"; "macosx"; "windows-win64" ]}
  /\ expansion "windows" = {[ "windows-win64"; "windows-arm64" ]}
  /\ expansion "macos" = {[ "macosx" ]}
  /\ (forall token : string,
        token ∉ ["dotnet"; "android"; "java"; "windows"; "macos"] ->
        expansion token = {[ token ]})
  /\ (forall original original' : list string,
        (forall token, token ∈ original <-> token ∈ original') ->
        calculate_variants original = calculate_variants original')
  /\ size (calculate_variants ["dotnet"]) = 9
  /\ "dotnet" ∉ calculate_variants ["dotnet"].
Proof.
  split_and!.
  - apply calculate_variants_union.
  - apply elem_of_calculate_variants.
  - set_solver.
  - set_solver.
  - set_solver.
  - set_solver.
  - set_solver.
  - intros token Hn. by apply expansion_other.
  - intros l l' Hl. apply set_eq. intros x.
    rewrite !elem_of_calculate_variants. by setoid_rewrite Hl.
  - by vm_compute.
  - intros Hin%calculate_variants_not_meta. apply Hin.
    apply meta_variant_cases. tauto.
Qed.

Lemma calculate_variants_expansion_witness :
  ("zzz" ∉ ["dotnet"; "android"; "java"; "windows"; "macos"])
  /\ expansion "zzz" = {[ "zzz" ]}.
Proof.
  assert (H : "zzz" ∉ ["dotnet"; "android"; "java"; "windows"; "macos"])
    by (rewrite !elem_of_cons, elem_of_nil; intros H; decompose [or] H; done).
  split; [exact H|].
  exact (proj1 (proj2 (proj2 (proj2 (proj2 (proj2 (proj2 (proj2
           calculate_variants_expansion))))))) "zzz" H).
Defined.

(** C7: expanding the result of an expansion changes nothing: whatever the
    order in which the resulting set is handed back, [calculate_variants]
    returns it as it is, because no variant in the result is a meta-variant
    (each one expands to itself). *)
Theorem calculate_variants_idempotent (original order : list string) :
  list_to_set order = calculate_variants original ->
  calculate_variants order = calculate_variants original
  /\ calculate_variants (elements (calculate_variants original))
     = calculate_variants original
  /\ (forall x, x ∈ calculate_variants original ->
                ~ meta_variant x /\ expansion x = {[ x ]}).
Proof.
  intros Horder.
  assert (Hfix : forall l : list string,
             list_to_set l = calculate_variants original ->
             calculate_variants l = calculate_variants original).
  { intros l Hl. rewrite <- Hl. apply calculate_variants_fixed.
    apply Forall_forall. intros x Hx.
    apply (calculate_variants_not_meta original). rewrite <- Hl.
    by apply elem_of_list_to_set. }
  split_and!.
  - by apply Hfix.
  - apply Hfix. apply list_to_set_elements_L.
  - intros x Hx. apply calculate_variants_not_meta in Hx.
    split; [done | by apply expansion_other].
Qed.

Lemma calculate_variants_idempotent_witness :
  calculate_variants ["windows-arm64"; "linux"; "macosx"; "windows-win64"]
  = calculate_variants ["java"; "windows"].
Proof.
  apply (calculate_variants_idempotent ["java"; "windows"]
           ["windows-arm64"; "linux"; "macosx"; "windows-win64"]).
  by vm_compute.
Defined.

(** ** PathResolver *)

Section PathResolver.

Variable h : Host.

(** The result of PathResolver for a variant that splits into [(os, abi)]:
    the base directory, then the subdirectory, then the resolution. *)
Lemma calculate_download_path_split variant output_base os abi :
  variant_to_pair variant = Ok (os, abi) ->
  calculate_download_path h variant output_base
  = (base ← absolute_base h output_base;
     sub ← subdirectory h os abi;
     resolve h (joinpath base (parse sub))).
Proof.
  intros Hsplit. unfold calculate_download_path, absolute_base, subdirectory.
  destruct (is_absolute (parse output_base)); cbn [negb].
  - cbn [mbind result_bind]. rewrite Hsplit. reflexivity.
  - destruct (getcwd h) as [here|e]; cbn [mbind result_bind]; [|done].
    rewrite Hsplit. reflexivity.
Qed.

(** A variant that cannot be split makes PathResolver raise the same, once
    the base directory is there. *)
Lemma calculate_download_path_invalid variant output_base base e :
  absolute_base h output_base = Ok base ->
  variant_to_pair variant = Raise e ->
  calculate_download_path h variant output_base = Raise e.
Proof.
  unfold calculate_download_path, absolute_base. intros Hbase Hv.
  destruct (is_absolute (parse output_base)); cbn [negb].
  - cbn [mbind result_bind]. by rewrite Hv.
  - destruct (getcwd h) as [here|e']; cbn [mbind result_bind]; [|done].
    by rewrite Hv.
Qed.

(** The base directory: [output_base] itself when it is absolute, without
    asking for the working directory; otherwise below the working
    directory, and absolute when that one is. *)
Lemma absolute_base_cases output_base :
  (is_absolute (parse output_base) = true ->
   absolute_base h output_base = Ok (parse output_base))
  /\ (is_absolute (parse output_base) = false ->
      forall e, getcwd h = Raise e -> absolute_base h output_base = Raise e)
  /\ (is_absolute (parse output_base) = false ->
      forall here, getcwd h = Ok here ->
        absolute_base h output_base
        = Ok {| root := root (parse here);
                parts := parts (parse here) ++ parts (parse output_base) |}).
Proof.
  unfold absolute_base. split_and!.
  - by intros ->.
  - intros -> e ->. reflexivity.
  - intros Hrel here ->. rewrite Hrel. cbn [mbind result_bind].
    unfold joinpath. by rewrite Hrel.
Qed.

End PathResolver.

(** C4: for every variant that VariantSplitter splits into [(os, abi)],
    [calculate_download_path] returns the resolution of the base directory
    joined with the subdirectory, whenever [os.getcwd()], the hook and
    [Path.resolve()] answer.  The base directory is [output_base] when it
    is absolute, and otherwise lies below the working directory; the
    subdirectory is the hook's answer when the extension is registered and
    [os/abi] otherwise, and a relative subdirectory is appended to the
    base.  The function raises nothing of its own: it raises exactly what
    one of these three calls raises.  Without the extension,
    ["windows-win64"] under ["/out"] gives the resolution of
    [/out/windows/x86_64], which is that very path where resolving leaves
    it as it is. *)
Theorem calculate_download_path_resolves
    (h : Host) (variant output_base os abi : string) :
  variant_to_pair variant = Ok (os, abi) ->
  (forall base sub,
     absolute_base h output_base = Ok base ->
     subdirectory h os abi = Ok sub ->
     calculate_download_path h variant output_base
     = resolve h (joinpath base (parse sub))
     /\ (is_absolute (parse sub) = false ->
         joinpath base (parse sub)
         = {| root := root base; parts := parts base ++ parts (parse sub) |}))
  /\ (is_absolute (parse output_base) = true ->
      absolute_base h output_base = Ok (parse output_base))
  /\ (is_absolute (parse output_base) = false ->
      forall here, getcwd h = Ok here ->
        absolute_base h output_base
        = Ok {| root := root (parse here);
                parts := parts (parse here) ++ parts (parse output_base) |})
  /\ (has_platform h = true ->
      subdirectory h os abi = subdirectory_for_variant h os abi)
  /\ (has_platform h = false ->
      subdirectory h os abi = Ok (os +:+ "/" +:+ abi))
  /\ (forall e,
        calculate_download_path h variant output_base = Raise e <->
        (is_absolute (parse output_base) = false /\ getcwd h = Raise e)
        \/ (exists base,
              absolute_base h output_base = Ok base
              /\ has_platform h = true
              /\ subdirectory_for_variant h os abi = Raise e)
        \/ (exists base sub,
              absolute_base h output_base = Ok base
              /\ subdirectory h os abi = Ok sub
              /\ resolve h (joinpath base (parse sub)) = Raise e))
  /\ (has_platform h = false ->
      let target := {| root := "/"; parts := ["out"; "windows"; "x86_64"] |} in
      str target = "/out/windows/x86_64"
      /\ calculate_download_path h "windows-win64" "/out" = resolve h target
      /\ (resolve h target = Ok target ->
          calculate_download_path h "windows-win64" "/out" = Ok target)).
Proof.
  intros Hsplit.
  pose proof (calculate_download_path_split h _ output_base _ _ Hsplit) as Hrun.
  destruct (absolute_base_cases h output_base) as (Habs & Hlost & Hrel).
  split_and!.
  - intros base sub Hbase Hsub. rewrite Hrun, Hbase, Hsub. split; [done|].
    intros Hr. unfold joinpath. by rewrite Hr.
  - exact Habs.
  - exact Hrel.
  - unfold subdirectory. by intros ->.
  - unfold subdirectory. by intros ->.
  - intros e. rewrite Hrun. split.
    + destruct (absolute_base h output_base) as [base|e1] eqn:Hbase.
      * cbn [mbind result_bind].
        destruct (subdirectory h os abi) as [sub|e2] eqn:Hsub.
        -- cbn [mbind result_bind]. intros Hres. right. right. by exists base, sub.
        -- cbn [mbind result_bind]. intros [= ->]. right. left. exists base.
           unfold subdirectory in Hsub.
           destruct (has_platform h); [done | discriminate].
      * cbn [mbind result_bind]. intros [= ->]. left.
        unfold absolute_base in Hbase.
        destruct (is_absolute (parse output_base)); [discriminate|].
        split; [done|].
        destruct (getcwd h) as [here|e']; cbn [mbind result_bind] in Hbase;
          congruence.
    + intros [[Hr Hcwd] | [(base & Hbase & Hhook & Hraise)
                          | (base & sub & Hbase & Hsub & Hraise)]].
      * by rewrite (Hlost Hr e Hcwd).
      * rewrite Hbase. unfold subdirectory. by rewrite Hhook, Hraise.
      * by rewrite Hbase, Hsub.
  - intros Hno. cbv zeta.
    assert (E : calculate_download_path h "windows-win64" "/out"
                = resolve h {| root := "/";
                               parts := ["out"; "windows"; "x86_64"] |}).
    { rewrite (calculate_download_path_split h _ _ "windows" "x86_64")
        by reflexivity.
      unfold subdirectory. rewrite Hno. reflexivity. }
    split_and!; [reflexivity | exact E | intros Hr; by rewrite E, Hr].
Qed.

Lemma calculate_download_path_resolves_witness :
  variant_to_pair "macosx" = Ok ("macos", "")
  /\ calculate_download_path (example_host 200) "macosx" "out"
     = Ok {| root := "/"; parts := ["work"; "out"; "macos"] |}.
Proof.
  split; [reflexivity|].
  exact (proj1 (proj1 (calculate_download_path_resolves (example_host 200)
                         "macosx" "out" "macos" "" eq_refl)
                  {| root := "/"; parts := ["work"; "out"] |} "macos/"
                  eq_refl eq_refl)).
Defined.

(** C4, the claim as it is written fails: where [/out] is a symbolic link
    to [/mnt/out], ["windows-win64"] under ["/out"] resolves to
    [/mnt/out/windows/x86_64], which is not [/out/windows/x86_64]; and where
    [os.getcwd()] raises, so does the function for a relative
    [output_base], on a variant that VariantSplitter splits. *)
Lemma calculate_download_path_counterexample :
  has_platform linked_host = false
  /\ variant_to_pair "windows-win64" = Ok ("windows", "x86_64")
  /\ calculate_download_path linked_host "windows-win64" "/out"
     = Ok {| root := "/"; parts := ["mnt"; "out"; "windows"; "x86_64"] |}
  /\ str {| root := "/"; parts := ["mnt"; "out"; "windows"; "x86_64"] |}
     <> "/out/windows/x86_64"
  /\ variant_to_pair "linux" = Ok ("linux", "x86_64")
  /\ calculate_download_path linked_host "linux" "out" = Raise OSError.
Proof. split_and!; try reflexivity. discriminate. Qed.

(** ** The file system *)

Section FileSystem.

Implicit Types (fs : FS) (k q : list string).

Lemma foldr_insert_dir_in fs (l : list (list string)) q :
  q ∈ l -> foldr (fun q acc => <[q := Dir]> acc) fs l !! q = Some Dir.
Proof.
  induction l as [|x l IH]; [by intros ?%elem_of_nil|].
  intros Hq. simpl. destruct (decide (x = q)) as [->|Hne].
  - apply lookup_insert_eq.
  - rewrite lookup_insert_ne by done. apply IH.
    apply elem_of_cons in Hq as [->|]; done.
Qed.

Lemma foldr_insert_dir_notin fs (l : list (list string)) q :
  q ∉ l -> foldr (fun q acc => <[q := Dir]> acc) fs l !! q = fs !! q.
Proof.
  induction l as [|x l IH]; [done|].
  intros Hq. apply not_elem_of_cons in Hq as [Hne Hq]. simpl.
  rewrite lookup_insert_ne by done. by apply IH.
Qed.

Lemma elem_of_ancestors k q :
  q ∈ ancestors k <-> q <> [] /\ q `prefix_of` k.
Proof.
  unfold ancestors. rewrite list_elem_of_fmap. split.
  - intros (n & -> & Hn). apply elem_of_seq in Hn. split.
    + destruct k as [|x k]; [simpl in Hn; lia|].
      destruct n; [lia | done].
    + apply prefix_take.
  - intros (Hne & [rest ->]). exists (length q). split.
    + by rewrite take_app_length.
    + apply elem_of_seq. rewrite length_app.
      destruct q; [done | simpl; lia].
Qed.

Lemma key_in_ancestors k : k <> [] -> k ∈ ancestors k.
Proof. intros. by apply elem_of_ancestors. Qed.

Lemma below_not_in_ancestors k q :
  k `prefix_of` q -> q <> k -> q ∉ ancestors k.
Proof.
  intros Hkq Hne [_ Hqk]%elem_of_ancestors. apply Hne.
  by apply (anti_symm prefix).
Qed.

Lemma lookup_node_key fs k : k <> [] -> lookup_node fs k = fs !! k.
Proof. by destruct k. Qed.

(** Removing a tree leaves what was a directory or free a directory or
    free. *)
Lemma is_dir_or_free_filter fs k q :
  is_dir_or_free fs q = true ->
  is_dir_or_free (filter (fun kv => ¬ k `prefix_of` kv.1) fs) q = true.
Proof.
  unfold is_dir_or_free. destruct q as [|x q]; [done|]. simpl.
  rewrite map_lookup_filter. destruct (fs !! (x :: q)) as [n|]; [|done].
  simpl. intros Hn. by case_guard.
Qed.

Lemma lookup_filter_tree fs k q :
  k `prefix_of` q ->
  filter (fun kv : list string * node => ¬ k `prefix_of` kv.1) fs !! q = None.
Proof.
  intros Hkq. rewrite map_lookup_filter. destruct (fs !! q); [|done].
  simpl. by case_guard.
Qed.

(** The prepared target is an existing directory. *)
Lemma prepared_is_dir fs k : k <> [] -> prepared k fs !! k = Some Dir.
Proof. intros. unfold prepared. by apply foldr_insert_dir_in, key_in_ancestors. Qed.

(** When the target was a directory, nothing is left below it. *)
Lemma prepared_is_empty fs k q :
  is_dir fs k = true -> k `prefix_of` q -> q <> k -> prepared k fs !! q = None.
Proof.
  intros Hd Hkq Hne. unfold prepared. rewrite Hd.
  rewrite foldr_insert_dir_notin by (by apply below_not_in_ancestors).
  by apply lookup_filter_tree.
Qed.

(** Removing the target when it is there, then making it, succeeds when the
    target and its ancestors are directories or free. *)
Lemma makedirs_after_rmtree fs k :
  k <> [] -> forallb (is_dir_or_free fs) (ancestors k) = true ->
  makedirs_fs k (if is_dir fs k then (rmtree_fs k fs).2 else fs)
  = (Ok tt, prepared k fs)
  /\ bool_decide (is_Some (lookup_node fs k)) = is_dir fs k
  /\ (is_dir fs k = true -> (rmtree_fs k fs).1 = Ok tt).
Proof.
  intros Hne Hall.
  assert (Hk : is_dir_or_free fs k = true).
  { rewrite forallb_forall in Hall.
    apply Hall, list_elem_of_In. by apply key_in_ancestors. }
  unfold is_dir_or_free in Hk. unfold is_dir, rmtree_fs, prepared, is_dir.
  destruct (lookup_node fs k) as [[| |]|] eqn:E; try done.
  - split_and!; [|done..]. cbn [snd]. unfold makedirs_fs.
    rewrite lookup_node_key, lookup_filter_tree by done.
    assert (Hf : forallb
              (is_dir_or_free (filter (fun kv => ¬ k `prefix_of` kv.1) fs))
              (ancestors k) = true); [|by rewrite Hf].
    rewrite forallb_forall in Hall. apply forallb_forall. intros q Hq.
    by apply is_dir_or_free_filter, Hall.
  - split_and!; [|done..]. unfold makedirs_fs. by rewrite E, Hall.
Qed.

End FileSystem.

(** ** ArtifactFetcher *)

Section ArtifactFetcher.

Variable h : Host.

Lemma run_bind {A B : Type} (m : M A) (f : A -> M B) (w : World) :
  (m ≫= f) w
  = match m w with
    | (Ok a, w') => f a w'
    | (Raise e, w') => (Raise e, w')
    end.
Proof. reflexivity. Qed.

Lemma conditional_print_run {A : Type} (msg : string) (K : M A) (w : World) :
  (conditional_print msg ≫= fun _ => K) w
  = K {| fs := fs w; stdout := stdout w ++ (if quiet w then [] else [msg]);
         calls := calls w; quiet := quiet w |}.
Proof.
  rewrite run_bind. unfold conditional_print, print.
  destruct w as [fs0 out cs [|]]; simpl; [by rewrite app_nil_r | done].
Qed.

(** The directory step, before whatever comes next. *)
Lemma prepare_run {A : Type} (dir : string) (K : M A) (w : World) :
  key h dir <> [] ->
  forallb (is_dir_or_free (fs w)) (ancestors (key h dir)) = true ->
  (os_path_exists h dir ≫= fun found =>
     (if found : bool then rmtree h dir else mret tt) ≫= fun _ =>
       os_makedirs h dir ≫= fun _ => K) w
  = K {| fs := prepared (key h dir) (fs w); stdout := stdout w;
         calls := calls w ++ prepare_calls (key h dir) (fs w) dir;
         quiet := quiet w |}.
Proof.
  intros Hne Hall.
  destruct (makedirs_after_rmtree (fs w) _ Hne Hall) as (Hmk & Hex & Hrm).
  rewrite run_bind. unfold os_path_exists. rewrite Hex.
  unfold prepare_calls. destruct (is_dir (fs w) (key h dir)) eqn:Hd.
  - specialize (Hrm eq_refl). rewrite run_bind. unfold rmtree, with_fs.
    destruct (rmtree_fs (key h dir) (fs w)) as [r fs1] eqn:E.
    simpl in Hrm, Hmk. subst r.
    rewrite run_bind. unfold os_makedirs, with_fs. cbn [fs stdout calls quiet].
    rewrite Hmk. by rewrite <- app_assoc.
  - rewrite run_bind. cbn [mret M_ret].
    rewrite run_bind. unfold os_makedirs, with_fs. by rewrite Hmk.
Qed.

(** Up to the request: the name and the directory are computed, the message
    is printed, the directory is prepared. *)
Lemma download_variant_ready folder variant build debug output_base w
    filename path :
  filename_for_platform variant debug build = Ok filename ->
  calculate_download_path h variant output_base = Ok path ->
  key h (str path) <> [] ->
  forallb (is_dir_or_free (fs w)) (ancestors (key h (str path))) = true ->
  download_variant h folder variant build debug output_base w
  = fetch_and_extract h variant filename (folder +:+ "/" +:+ filename)
      (str path) (ready_world h w filename (str path)).
Proof.
  intros Hfile Hpath Hne Hall.
  unfold download_variant. rewrite Hfile, Hpath.
  rewrite run_bind. unfold lift at 1. cbv beta iota.
  rewrite run_bind. unfold lift at 1. cbv beta iota.
  rewrite conditional_print_run, prepare_run by done.
  reflexivity.
Qed.

Lemma is_2xx_test status :
  ((200 <=? status)%Z && (status <? 300)%Z = true) <-> is_2xx status.
Proof. unfold is_2xx. rewrite andb_true_iff, Z.leb_le, Z.ltb_lt. tauto. Qed.

(** A request answered outside 200..299: the status is printed, 1 is
    returned, nothing else happens. *)
Lemma fetch_failure variant filename url dir w status body :
  server h url = Response status body -> ~ is_2xx status ->
  fetch_and_extract h variant filename url dir w
  = (Ok 1%Z,
     add_output (requested_world w url (dir +:+ "/" +:+ filename))
                ("!!! Failed: " +:+ pretty status)).
Proof.
  intros Hs Hn. rewrite <- is_2xx_test in Hn. apply not_true_is_false in Hn.
  unfold fetch_and_extract. cbv zeta. rewrite run_bind.
  unfold try_except_HTTPError. rewrite run_bind.
  unfold urlretrieve, with_fs. rewrite Hs, Hn. reflexivity.
Qed.

(** A request answered in 200..299 whose body is stored: what remains is
    the extraction. *)
Lemma fetch_success variant filename url dir w status body fs' :
  server h url = Response status body -> is_2xx status ->
  write_file_fs (key h (dir +:+ "/" +:+ filename)) body (fs w) = (Ok tt, fs') ->
  fetch_and_extract h variant filename url dir w
  = (if String.eqb variant "ios/net" then mret 0%Z
     else
       conditional_print ("--- Extracting " +:+ filename +:+ "...");;
       (if PyStr.endswith filename "tar.gz"
        then tar_extract h (dir +:+ "/" +:+ filename) dir
        else unzip h (dir +:+ "/" +:+ filename) dir);;
       mret 0%Z)
      (fetched_world w url (dir +:+ "/" +:+ filename) fs').
Proof.
  intros Hs Hy Hw. rewrite <- is_2xx_test in Hy.
  unfold fetch_and_extract. cbv zeta. rewrite run_bind.
  unfold try_except_HTTPError. rewrite run_bind.
  unfold urlretrieve, with_fs. rewrite Hs, Hy, Hw. reflexivity.
Qed.

(** The extraction returns 0 when it completes. *)
Lemma extraction_returns_zero filename dir full_path (w w' : World) :
  (conditional_print ("--- Extracting " +:+ filename +:+ "...");;
   (if PyStr.endswith filename "tar.gz"
    then tar_extract h full_path dir
    else unzip h full_path dir)) w = (Ok tt, w') ->
  (conditional_print ("--- Extracting " +:+ filename +:+ "...");;
   (if PyStr.endswith filename "tar.gz"
    then tar_extract h full_path dir
    else unzip h full_path dir);;
   mret 0%Z) w = (Ok 0%Z, w').
Proof.
  rewrite !conditional_print_run. intros Hx. rewrite run_bind. by rewrite Hx.
Qed.

(** What the extraction raises leaves the function. *)
Lemma extraction_raises filename dir full_path (w w' : World) e :
  (conditional_print ("--- Extracting " +:+ filename +:+ "...");;
   (if PyStr.endswith filename "tar.gz"
    then tar_extract h full_path dir
    else unzip h full_path dir)) w = (Raise e, w') ->
  (conditional_print ("--- Extracting " +:+ filename +:+ "...");;
   (if PyStr.endswith filename "tar.gz"
    then tar_extract h full_path dir
    else unzip h full_path dir);;
   mret 0%Z) w = (Raise e, w').
Proof.
  rewrite !conditional_print_run. intros Hx. rewrite run_bind. by rewrite Hx.
Qed.

(** *** Zip archives *)


(** [os.symlink] makes the link exactly where it can be made. *)
Lemma symlink_fs_made (target dst : string) (fs0 : FS) (k : list string) :
  link_place h fs0 target dst k ->
  symlink_fs (cwd h) target dst fs0 = (Ok tt, <[k := Symlink target]> fs0).
Proof.
  intros (Hne & Hnt & Hnd & Hplace & Hfree). unfold symlink_fs.
  rewrite Hnt, Hnd. cbn [orb].
  rewrite (proj2 (String.eqb_neq target "") Hne), Hplace. by rewrite Hfree.
Qed.



(** A place that is taken makes [os.symlink] raise [OSError]. *)
Lemma symlink_fs_taken (target dst : string) (fs0 : FS) (k : list string) :
  has_nul target = false -> has_nul dst = false ->
  new_name_place (cwd h) dst fs0 = Ok k -> lookup_node fs0 k <> None ->
  symlink_fs (cwd h) target dst fs0 = (Raise OSError, fs0).
Proof.
  intros Hnt Hnd Hplace Htaken. unfold symlink_fs. rewrite Hnt, Hnd.
  cbn [orb]. destruct (String.eqb target ""); [done|]. rewrite Hplace.
  by destruct (lookup_node fs0 k).
Qed.

(** The turn of a symbolic-link entry is the reading of its text and
    [os.symlink]. *)
Lemma unzip_entry_link zip dest zipinfo w data linkpath :
  Z.shiftr (external_attr zipinfo) 28 = 10%Z ->
  read zip (filename zipinfo) = Ok data ->
  utf8_decode h data = Ok linkpath ->
  unzip_entry h zip dest zipinfo w
  = os_symlink h linkpath (os_path_join dest (filename zipinfo)) w.
Proof.
  intros Hn Hread Hdec. unfold unzip_entry. cbv zeta. rewrite Hn.
  cbn [Z.eqb Pos.eqb]. rewrite run_bind. unfold lift at 1. rewrite Hread.
  rewrite run_bind. unfold lift at 1. by rewrite Hdec.
Qed.






End ArtifactFetcher.

(** C8: once the request is reached (the name and the directory computed,
    the directory prepared), an answer outside 200..299 makes
    [download_variant] print the status and return 1, having made exactly
    one request and no call that touches an archive; an answer in 200..299
    whose body is stored makes it return 0, at once for ["ios/net"] and
    after the extraction has completed for every other variant; what the
    extraction raises is not caught and leaves the function. *)
Theorem download_variant_http_outcome
    (h : Host) (folder variant : string) (build : option string)
    (debug : bool) (output_base : string) (w : World)
    (filename : string) (path : Path) (status : Z) (body : string) :
  filename_for_platform variant debug build = Ok filename ->
  calculate_download_path h variant output_base = Ok path ->
  key h (str path) <> [] ->
  forallb (is_dir_or_free (fs w)) (ancestors (key h (str path))) = true ->
  server h (folder +:+ "/" +:+ filename) = Response status body ->
  let url := folder +:+ "/" +:+ filename in
  let full_path := str path +:+ "/" +:+ filename in
  let made := prepare_calls (key h (str path)) (fs w) (str path)
              ++ [CallUrlretrieve url full_path] in
  (~ is_2xx status ->
   exists w',
     download_variant h folder variant build debug output_base w
     = (Ok 1%Z, w')
     /\ stdout w' = stdout w ++ downloading_message w filename (str path)
                      ++ ["!!! Failed: " +:+ pretty status]
     /\ calls w' = calls w ++ made
     /\ filter request_call made = [CallUrlretrieve url full_path]
     /\ filter extraction_call made = []
     /\ fs w' = prepared (key h (str path)) (fs w))
  /\ (is_2xx status ->
      forall fs',
        write_file_fs (key h full_path) body
          (prepared (key h (str path)) (fs w)) = (Ok tt, fs') ->
        let fetched :=
          fetched_world (ready_world h w filename (str path))
            url full_path fs' in
        (variant = "ios/net" ->
         download_variant h folder variant build debug output_base w
         = (Ok 0%Z, fetched))
        /\ (variant <> "ios/net" ->
            forall w',
              (conditional_print ("--- Extracting " +:+ filename +:+ "...");;
               (if PyStr.endswith filename "tar.gz"
                then tar_extract h full_path (str path)
                else unzip h full_path (str path))) fetched = (Ok tt, w') ->
              download_variant h folder variant build debug output_base w
              = (Ok 0%Z, w'))
        /\ (variant <> "ios/net" ->
            forall e w',
              (conditional_print ("--- Extracting " +:+ filename +:+ "...");;
               (if PyStr.endswith filename "tar.gz"
                then tar_extract h full_path (str path)
                else unzip h full_path (str path))) fetched = (Raise e, w') ->
              download_variant h folder variant build debug output_base w
              = (Raise e, w'))).
Proof.
  intros Hfile Hpath Hne Hall Hserver. cbv zeta.
  rewrite (download_variant_ready h _ _ _ _ _ _ _ _ Hfile Hpath Hne Hall).
  split.
  - intros Hn. eexists. split; [by eapply fetch_failure|].
    unfold add_output, requested_world, ready_world, prepare_calls.
    cbn [fs stdout calls quiet].
    split_and!; [by rewrite <- !app_assoc | by rewrite <- !app_assoc | | | done];
      by destruct (is_dir (fs w) (key h (str path))).
  - intros Hy fs' Hw.
    rewrite (fetch_success h _ _ _ _ _ _ _ fs' Hserver Hy) by exact Hw.
    split_and!.
    + intros ->. reflexivity.
    + intros Hv w' Hx. apply String.eqb_neq in Hv. rewrite Hv.
      by apply extraction_returns_zero.
    + intros Hv e w' Hx. apply String.eqb_neq in Hv. rewrite Hv.
      by apply extraction_raises.
Qed.

Lemma download_variant_http_outcome_witness :
  exists w',
    download_variant (example_host 404) "http://build" "windows-win64" None
      false "/out" example_world = (Ok 1%Z, w')
    /\ stdout w'
       = ["--- Downloading couchbase-lite-core-windows-win64.zip to /out/windows/x86_64...";
          "!!! Failed: 404"]
    /\ calls w'
       = [CallRmtree "/out/windows/x86_64";
          CallMakedirs "/out/windows/x86_64";
          CallUrlretrieve
            "http://build/couchbase-lite-core-windows-win64.zip"
            "/out/windows/x86_64/couchbase-lite-core-windows-win64.zip"].
Proof.
  assert (Hn : ~ is_2xx 404) by (unfold is_2xx; lia).
  destruct (proj1 (download_variant_http_outcome (example_host 404)
                     "http://build" "windows-win64" None false "/out"
                     example_world "couchbase-lite-core-windows-win64.zip"
                     {| root := "/"; parts := ["out"; "windows"; "x86_64"] |}
                     404 "PK" eq_refl eq_refl ltac:(discriminate) eq_refl
                     eq_refl) Hn)
    as (w' & Hrun & Hout & Hcalls & _).
  exists w'. split_and!; [exact Hrun | exact Hout | exact Hcalls].
Defined.

(** C8, the claim as it is written fails: a download that succeeds does not
    always end in 0.  The server answers 200 and the body is stored, but it
    is no zip archive: [zipfile.ZipFile] raises [BadZipFile], outside the
    [try], and [download_variant] raises it instead of returning. *)
Lemma download_variant_http_outcome_counterexample :
  is_2xx 200
  /\ exists w',
       download_variant (with_zip (example_host 200) (Raise BadZipFile))
         "http://build" "windows-win64" None false "/out" example_world
       = (Raise BadZipFile, w')
       /\ fs w' !! ["out"; "windows"; "x86_64";
                    "couchbase-lite-core-windows-win64.zip"]
          = Some (File "PK").
Proof.
  split; [unfold is_2xx; lia|].
  eexists. split; [vm_compute; reflexivity | reflexivity].
Qed.

(** C10: when the target directory exists, [download_variant] removes it
    with all it holds and makes it anew before the request; when the request
    is then answered outside 200..299, 1 is returned and the target is an
    empty directory: what it held is gone and is not put back. *)
Theorem download_variant_failure_empties_target
    (h : Host) (folder variant : string) (build : option string)
    (debug : bool) (output_base : string) (w : World)
    (filename : string) (path : Path) (status : Z) (body : string) :
  filename_for_platform variant debug build = Ok filename ->
  calculate_download_path h variant output_base = Ok path ->
  key h (str path) <> [] ->
  fs w !! key h (str path) = Some Dir ->
  forallb (is_dir_or_free (fs w)) (ancestors (key h (str path))) = true ->
  server h (folder +:+ "/" +:+ filename) = Response status body ->
  ~ is_2xx status ->
  exists w',
    download_variant h folder variant build debug output_base w = (Ok 1%Z, w')
    /\ calls w'
       = calls w
         ++ [CallRmtree (str path); CallMakedirs (str path);
             CallUrlretrieve (folder +:+ "/" +:+ filename)
               (str path +:+ "/" +:+ filename)]
    /\ fs w' !! key h (str path) = Some Dir
    /\ (forall q,
          key h (str path) `prefix_of` q -> q <> key h (str path) ->
          fs w' !! q = None).
Proof.
  intros Hfile Hpath Hne Hdir Hall Hserver Hn.
  assert (Hd : is_dir (fs w) (key h (str path)) = true).
  { unfold is_dir. by rewrite lookup_node_key, Hdir. }
  rewrite (download_variant_ready h _ _ _ _ _ _ _ _ Hfile Hpath Hne Hall).
  eexists. split; [by eapply fetch_failure|].
  unfold add_output, requested_world, ready_world, prepare_calls.
  cbn [fs stdout calls quiet]. rewrite Hd. split_and!.
  - by rewrite <- !app_assoc.
  - by apply prepared_is_dir.
  - intros q Hq Hqk. by apply prepared_is_empty.
Qed.

Lemma download_variant_failure_empties_target_witness :
  fs example_world !! ["out"; "windows"; "x86_64"; "old.dll"]
  = Some (File "old")
  /\ exists w',
       download_variant (example_host 404) "http://build" "windows-win64"
         None false "/out" example_world = (Ok 1%Z, w')
       /\ fs w' !! ["out"; "windows"; "x86_64"] = Some Dir
       /\ fs w' !! ["out"; "windows"; "x86_64"; "old.dll"] = None.
Proof.
  split; [reflexivity|].
  assert (Hn : ~ is_2xx 404) by (unfold is_2xx; lia).
  destruct (download_variant_failure_empties_target (example_host 404)
              "http://build" "windows-win64" None false "/out"
              example_world "couchbase-lite-core-windows-win64.zip"
              {| root := "/"; parts := ["out"; "windows"; "x86_64"] |}
              404 "PK" eq_refl eq_refl ltac:(discriminate) eq_refl eq_refl
              eq_refl Hn)
    as (w' & Hrun & _ & Hdir & Hgone).
  exists w'. split_and!; [exact Hrun | exact Hdir |].
  apply Hgone; [by exists ["old.dll"] | discriminate].
Defined.




(** * Further properties of the script *)

(** ** The pair of a variant *)

Lemma contains_append_l s1 s2 sub : contains s2 sub -> contains (s1 +:+ s2) sub.
Proof.
  intros (pre & post & ->). exists (s1 +:+ pre), post.
  by rewrite append_assoc.
Qed.

Lemma not_contains_computed s sub :
  PyStr.find_opt s sub = None -> ~ contains s sub.
Proof. apply find_opt_None. Qed.

(** The OS of every pair is one of the words the code writes or the part
    before the first dash. *)
Lemma variant_to_pair_os variant os abi :
  variant_to_pair variant = Ok (os, abi) ->
  os = "linux" \/ os = "centos6" \/ os = "macos" \/ os = "ios"
  \/ os = "windows"
  \/ exists abi', variant = os +:+ "-" +:+ abi' /\ ~ contains os "-".
Proof.
  intros Hr.
  destruct (variant_cases variant)
    as [Hf | [[Hf Hd] | [Hf (osname & abi' & -> & Hd)]]].
  - unfold variant_to_pair in Hr.
    destruct (String.eqb variant "linux" || String.eqb variant "centos6")
      eqn:H1.
    { injection Hr as <- _. apply orb_true_iff in H1.
      rewrite !String.eqb_eq in H1. tauto. }
    destruct (String.eqb variant "macosx") eqn:H2;
      [injection Hr as <- _; tauto|].
    destruct (PyStr.startswith variant "ios") eqn:H3;
      [injection Hr as <- _; tauto|].
    apply fixed_test_spec in Hf. unfold fixed_test in Hf.
    by rewrite H1, H2, H3 in Hf.
  - by rewrite variant_to_pair_no_dash in Hr.
  - rewrite variant_to_pair_dash in Hr by done.
    destruct (String.eqb osname "android").
    { injection Hr as <- _. do 5 right. eauto. }
    destruct (negb (PyStr.find abi' "win64" =? -1)%Z).
    { injection Hr as <- _. tauto. }
    injection Hr as <- _. do 5 right. eauto.
Qed.

(** X1: the OS name that [variant_to_pair] returns never holds a dash,
    whatever the variant: it is a single token, fit to be one directory
    name. *)
Theorem variant_to_pair_os_dash_free (variant os abi : string) :
  variant_to_pair variant = Ok (os, abi) -> ~ contains os "-".
Proof.
  intros Hr.
  destruct (variant_to_pair_os _ _ _ Hr)
    as [-> | [-> | [-> | [-> | [-> | (abi' & _ & Hd)]]]]];
    [by apply not_contains_computed.. | done].
Qed.

Lemma variant_to_pair_os_dash_free_witness :
  variant_to_pair "android-arm64-v8a" = Ok ("android", "arm64-v8a")
  /\ ~ contains "android" "-".
Proof.
  split; [reflexivity|].
  exact (variant_to_pair_os_dash_free "android-arm64-v8a" "android"
           "arm64-v8a" eq_refl).
Defined.

(** X2: for a variant that is not one of the fixed names, the pair gives the
    variant back, [os-abi], unless the code rewrote it for win64: that is,
    whenever the OS is android or the variant holds no ["win64"]. *)
Theorem variant_to_pair_round_trip (variant os abi : string) :
  ~ fixed_name variant ->
  variant_to_pair variant = Ok (os, abi) ->
  os = "android" \/ ~ contains variant "win64" ->
  variant = os +:+ "-" +:+ abi.
Proof.
  intros Hf Hr Hkeep.
  destruct (variant_cases variant)
    as [Hf' | [[_ Hd] | [_ (osname & abi' & -> & Hd)]]]; [done | |].
  - by rewrite variant_to_pair_no_dash in Hr.
  - rewrite variant_to_pair_dash in Hr by done.
    destruct (String.eqb_spec osname "android") as [->|Ha].
    { by injection Hr as <- <-. }
    destruct (PyStr.find abi' "win64" =? -1)%Z eqn:Hw; simpl in Hr.
    { by injection Hr as <- <-. }
    injection Hr as <- <-. destruct Hkeep as [[=]|Hn].
    destruct Hn. apply contains_append_l, (contains_append_l "-").
    destruct (PyStr.find_opt abi' "win64") as [i|] eqn:Hi.
    + by eapply find_opt_Some_contains.
    + unfold PyStr.find in Hw. by rewrite Hi in Hw.
Qed.

Lemma variant_to_pair_round_trip_witness :
  "windows-arm64" = "windows" +:+ "-" +:+ "arm64".
Proof.
  apply (variant_to_pair_round_trip "windows-arm64" "windows" "arm64").
  - rewrite <- fixed_test_spec. discriminate.
  - reflexivity.
  - right. by apply not_contains_computed.
Defined.

(** ** Expansion *)

Lemma calculate_variants_app (l1 l2 : list string) :
  calculate_variants (l1 ++ l2) = calculate_variants l1 ∪ calculate_variants l2.
Proof.
  rewrite !calculate_variants_union, fmap_app. apply set_eq. intros x.
  rewrite elem_of_union, !elem_of_union_list. setoid_rewrite elem_of_app.
  naive_solver.
Qed.

Lemma calculate_variants_mono (l1 l2 : list string) :
  (forall token, token ∈ l1 -> token ∈ l2) ->
  calculate_variants l1 ⊆ calculate_variants l2.
Proof.
  intros Hsub x. rewrite !elem_of_calculate_variants.
  intros (token & Ht & Hx). eauto.
Qed.

(** X3: [calculate_variants] of nothing is the empty set, of two lists put
    together is the union of their expansions, and it grows with its input:
    adding tokens never removes a variant. *)
Theorem calculate_variants_compose (l1 l2 : list string) :
  calculate_variants [] = ∅
  /\ calculate_variants (l1 ++ l2)
     = calculate_variants l1 ∪ calculate_variants l2
  /\ calculate_variants l1 ⊆ calculate_variants (l1 ++ l2)
  /\ calculate_variants l2 ⊆ calculate_variants (l1 ++ l2).
Proof.
  split_and!.
  - reflexivity.
  - apply calculate_variants_app.
  - apply calculate_variants_mono. intros. apply elem_of_app. tauto.
  - apply calculate_variants_mono. intros. apply elem_of_app. tauto.
Qed.

(** X4: a meta-variant handed to [variant_to_pair] as it is makes it raise,
    so expansion must come first; and for tokens taken from
    [VALID_PLATFORMS], every variant that [calculate_variants] returns is
    again a valid platform, is split by [variant_to_pair], and is no
    meta-variant. *)
Theorem valid_platforms_expand_to_variants (original : list string) (v : string) :
  (forall token, token ∈ original -> token ∈ VALID_PLATFORMS) ->
  v ∈ calculate_variants original ->
  v ∈ VALID_PLATFORMS
  /\ is_ok (variant_to_pair v) = true
  /\ ~ meta_variant v
  /\ (forall token, meta_variant token ->
                    variant_to_pair token = Raise ValueError).
Proof.
  intros Hvalid Hv.
  assert (Hall : forallb
            (fun v => bool_decide (v ∈ VALID_PLATFORMS)
                      && is_ok (variant_to_pair v))
            (elements (calculate_variants VALID_PLATFORMS)) = true)
    by (vm_compute; reflexivity).
  rewrite forallb_forall in Hall.
  apply (calculate_variants_mono _ VALID_PLATFORMS Hvalid) in Hv as Hv'.
  apply elem_of_elements, list_elem_of_In, Hall in Hv'.
  apply andb_true_iff in Hv' as [Hin Hok]. apply bool_decide_eq_true in Hin.
  split_and!; [done | done | by eapply calculate_variants_not_meta |].
  intros token Hm. apply meta_variant_cases in Hm.
  by destruct Hm as [-> | [-> | [-> | [-> | ->]]]].
Qed.

Lemma valid_platforms_expand_to_variants_witness :
  "windows-arm64" ∈ VALID_PLATFORMS
  /\ is_ok (variant_to_pair "windows-arm64") = true.
Proof.
  assert (H : "windows-arm64" ∈ VALID_PLATFORMS
              /\ is_ok (variant_to_pair "windows-arm64") = true
              /\ ~ meta_variant "windows-arm64"
              /\ (forall token, meta_variant token ->
                                variant_to_pair token = Raise ValueError)).
  { apply (valid_platforms_expand_to_variants ["windows"; "ios"]).
    - intros token Ht. unfold VALID_PLATFORMS.
      rewrite !elem_of_cons, elem_of_nil in Ht.
      destruct Ht as [-> | [-> | []]]; rewrite !elem_of_cons; tauto.
    - apply elem_of_calculate_variants. exists "windows".
      split; [rewrite !elem_of_cons; tauto|].
      unfold expansion. vm_compute (list_find _ _). simpl.
      rewrite !elem_of_union, !elem_of_singleton. tauto. }
  split; [exact (proj1 H) | exact (proj1 (proj2 H))].
Defined.

(** ** File names *)

Lemma slice_to_from n s : PyStr.slice_to n s +:+ PyStr.slice_from n s = s.
Proof.
  revert s. induction n as [|n IH]; intros [|a s]; simpl; try done.
  by rewrite IH.
Qed.

Lemma endswith_spec s suffix :
  PyStr.endswith s suffix = true <-> exists pre, s = pre +:+ suffix.
Proof.
  unfold PyStr.endswith. rewrite andb_true_iff, Nat.leb_le, String.eqb_eq.
  split.
  - intros [_ Hs].
    exists (PyStr.slice_to (String.length s - String.length suffix) s).
    rewrite <- Hs at 2. by rewrite slice_to_from.
  - intros [pre ->]. rewrite append_length. split; [lia|].
    replace (String.length pre + String.length suffix - String.length suffix)
      with (String.length pre) by lia.
    apply slice_from_append.
Qed.

Lemma last_char_append s t : t <> "" -> last_char (s +:+ t) = last_char t.
Proof.
  intros Ht. induction s as [|a s IH]; [done|].
  simpl. destruct (s +:+ t) eqn:E; [|done].
  destruct s; [by simpl in E | done].
Qed.

(** A build of one segment has no second segment to name. *)
Lemma filename_one_segment variant debug build seg0 :
  segments_of build [seg0] ->
  filename_for_platform variant debug (Some build) = Raise IndexError.
Proof.
  intros Hs%segments_of_split. unfold filename_for_platform. cbv zeta.
  by rewrite <- Hs.
Qed.

(** Every name is a stem that does not depend on the debug flag, the debug
    suffix, a dot and the extension. *)
Lemma filename_shape variant debug build filename :
  filename_for_platform variant debug build = Ok filename ->
  exists stem,
    forall debug',
      filename_for_platform variant debug' build
      = Ok (stem +:+ debug_suffix debug' +:+ "." +:+ extension variant).
Proof.
  intros Hr. destruct build as [build|].
  - pose proof (proj2 (segments_of_split build _) eq_refl) as Hseg.
    destruct (PyStr.split build "-") as [|seg0 [|seg1 rest]] eqn:E.
    + by destruct Hseg as [? _].
    + by rewrite (filename_one_segment _ _ _ _ Hseg) in Hr.
    + exists ("couchbase-lite-core-" +:+ edition (seg0 :: seg1 :: rest)
                +:+ "-" +:+ seg0 +:+ "-" +:+ seg1 +:+ "-"
                +:+ naming_variant variant).
      intros debug'. rewrite (filename_with_build _ _ _ _ _ _ Hseg).
      by rewrite !append_assoc.
  - exists ("couchbase-lite-core-" +:+ naming_variant variant).
    intros debug'. destruct (naming_rules variant) as [Hname Hext].
    unfold filename_for_platform. cbv zeta. rewrite Hname, Hext.
    by rewrite !append_assoc.
Qed.

(** X5: whatever the debug flag and the build, the name that
    [filename_for_platform] returns ends in ["tar.gz"] exactly when the
    variant is linux or centos6, and in [".zip"] exactly when it is
    neither. *)
Theorem filename_tar_gz_iff_linux
    (variant : string) (debug : bool) (build : option string)
    (filename : string) :
  filename_for_platform variant debug build = Ok filename ->
  (PyStr.endswith filename "tar.gz" = true
   <-> variant = "linux" \/ variant = "centos6")
  /\ (PyStr.endswith filename ".zip" = true
      <-> ~ (variant = "linux" \/ variant = "centos6")).
Proof.
  intros Hr. destruct (filename_shape _ _ _ _ Hr) as [stem Hshape].
  rewrite (Hshape debug) in Hr. injection Hr as <-.
  unfold extension. rewrite !endswith_spec.
  destruct (decide (variant = "linux" \/ variant = "centos6")) as [Hv|Hv].
  - split.
    + split; [done|]. intros _. exists (stem +:+ debug_suffix debug +:+ ".").
      by rewrite !append_assoc.
    + split; [|done]. intros [pre Hpre]. apply (f_equal last_char) in Hpre.
      rewrite <- !append_assoc in Hpre.
      rewrite !last_char_append in Hpre by done. done.
  - split.
    + split; [|done]. intros [pre Hpre]. apply (f_equal last_char) in Hpre.
      rewrite <- !append_assoc in Hpre.
      rewrite !last_char_append in Hpre by done. done.
    + split; [done|]. intros _. exists (stem +:+ debug_suffix debug).
      by rewrite !append_assoc.
Qed.

Lemma filename_tar_gz_iff_linux_witness :
  (PyStr.endswith "couchbase-lite-core-centos6-debug.tar.gz" "tar.gz" = true
   <-> "centos6" = "linux" \/ "centos6" = "centos6")
  /\ (PyStr.endswith "couchbase-lite-core-centos6-debug.tar.gz" ".zip" = true
      <-> ~ ("centos6" = "linux" \/ "centos6" = "centos6")).
Proof.
  exact (filename_tar_gz_iff_linux "centos6" true None
           "couchbase-lite-core-centos6-debug.tar.gz" eq_refl).
Defined.

(** X6: of a build descriptor only the first three segments count: the
    first two are written into the name, the third decides the edition, and
    whatever follows is ignored. *)
Theorem filename_ignores_later_segments
    (variant : string) (debug : bool) (build build3 : string)
    (seg0 seg1 seg2 : string) (rest : list string) :
  segments_of build (seg0 :: seg1 :: seg2 :: rest) ->
  segments_of build3 [seg0; seg1; seg2] ->
  filename_for_platform variant debug (Some build)
  = filename_for_platform variant debug (Some build3).
Proof.
  intros Hs Hs3.
  rewrite (filename_with_build _ _ _ _ _ _ Hs),
    (filename_with_build _ _ _ _ _ _ Hs3).
  unfold edition. simpl.
  destruct (decide (seg2 = "EE")) as [->|Hne].
  - rewrite !decide_True; [done | split; [lia|done] | split; [lia|done]].
  - rewrite !decide_False; [done | intros [_ [=]]; done..].
Qed.

Lemma filename_ignores_later_segments_witness :
  filename_for_platform "macosx" false (Some "3.1.0-97-EE-rc1-final")
  = filename_for_platform "macosx" false (Some "3.1.0-97-EE").
Proof.
  apply (filename_ignores_later_segments "macosx" false _ _
           "3.1.0" "97" "EE" ["rc1"; "final"]);
    apply segments_of_split; reflexivity.
Defined.

(** X7: the debug name and the release name of the same variant and build
    are never the same file name. *)
Theorem filename_debug_differs
    (variant : string) (build : option string) (name_debug name_release : string) :
  filename_for_platform variant true build = Ok name_debug ->
  filename_for_platform variant false build = Ok name_release ->
  name_debug <> name_release.
Proof.
  intros Hd Hr. destruct (filename_shape _ _ _ _ Hd) as [stem Hshape].
  rewrite (Hshape true) in Hd. rewrite (Hshape false) in Hr.
  injection Hd as <-. injection Hr as <-.
  intros E. apply (inj (String.append stem)) in E. discriminate.
Qed.

Lemma filename_debug_differs_witness :
  "couchbase-lite-core-linux-debug.tar.gz" <> "couchbase-lite-core-linux.tar.gz".
Proof.
  exact (filename_debug_differs "linux" None _ _ eq_refl eq_refl).
Defined.

(** ** Download paths *)

Lemma split_char_cons (c a : ascii) s :
  PyStr.split_from 0 (String a s) (String c "")
  = if Ascii.eqb c a then "" :: PyStr.split_from 0 s (String c "")
    else match PyStr.split_from 0 s (String c "") with
         | piece :: pieces => String a piece :: pieces
         | [] => [String a ""]
         end.
Proof.
  cbn [PyStr.split_from PyStr.startswith String.length Nat.sub].
  by destruct (Ascii.eqb c a).
Qed.

Lemma no_char_cons (c a : ascii) x :
  ~ contains (String a x) (String c "") ->
  Ascii.eqb c a = false /\ ~ contains x (String c "").
Proof.
  intros Hn. split; [|by eapply not_contains_cons].
  apply Ascii.eqb_neq. intros <-. apply Hn. by exists "", x.
Qed.

Lemma split_char_free (c : ascii) x :
  ~ contains x (String c "") -> PyStr.split x (String c "") = [x].
Proof.
  unfold PyStr.split. induction x as [|a x IH]; intros Hn; [done|].
  apply no_char_cons in Hn as [Ha Hx].
  by rewrite split_char_cons, Ha, IH.
Qed.

Lemma split_char_append (c : ascii) x rest :
  ~ contains x (String c "") ->
  PyStr.split (x +:+ String c rest) (String c "")
  = x :: PyStr.split rest (String c "").
Proof.
  unfold PyStr.split. induction x as [|a x IH]; intros Hn.
  - change ("" +:+ String c rest) with (String c rest).
    by rewrite split_char_cons, Ascii.eqb_refl.
  - apply no_char_cons in Hn as [Ha Hx].
    change (String a x +:+ String c rest) with (String a (x +:+ String c rest)).
    by rewrite split_char_cons, Ha, IH.
Qed.

(** [pathlib] reads [os/abi] as the component [os] and, unless it is empty
    or a dot, the component [abi]. *)
Lemma parse_os_abi os abi :
  plain os -> ~ contains abi "/" ->
  parse (os +:+ "/" +:+ abi)
  = {| root := "";
       parts := os :: (if decide (abi = "" \/ abi = ".") then [] else [abi]) |}.
Proof.
  intros (Hne & Hdot & Hslash) Habi. unfold parse, splitroot.
  destruct os as [|a os]; [done|].
  destruct (no_char_cons _ _ _ Hslash) as [Ha _].
  assert (Hs : PyStr.startswith (String a os +:+ "/" +:+ abi) "/" = false).
  { simpl. simpl in Ha. by rewrite Ha. }
  rewrite Hs. f_equal.
  change ("/" +:+ abi) with (String "/" abi).
  rewrite split_char_append, split_char_free by done.
  rewrite filter_cons, decide_True by done. f_equal.
  rewrite filter_cons. destruct (decide (abi = "" \/ abi = ".")) as [Hd|Hd].
  - rewrite decide_False; [done | tauto].
  - rewrite decide_True; [done | tauto].
Qed.

(** X8: without a platform extension the download directory lies directly
    below the base directory: it is the resolution of the base's components
    followed by the OS and, unless the ABI is empty or a dot, the ABI; what
    the making of the base or the resolution raises is passed on. *)
Theorem download_path_layout
    (h : Host) (variant output_base os abi : string) :
  has_platform h = false ->
  variant_to_pair variant = Ok (os, abi) ->
  plain os -> ~ contains abi "/" ->
  calculate_download_path h variant output_base
  = (base ← absolute_base h output_base;
     resolve h
       {| root := root base;
          parts := parts base
                   ++ os :: (if decide (abi = "" \/ abi = ".")
                             then [] else [abi]) |}).
Proof.
  intros Hno Hsplit Hos Habi.
  rewrite (calculate_download_path_split h _ _ _ _ Hsplit).
  unfold subdirectory. rewrite Hno.
  destruct (absolute_base h output_base) as [base|e]; [|done].
  cbn [mbind result_bind]. rewrite parse_os_abi by done. reflexivity.
Qed.

Lemma download_path_layout_witness :
  calculate_download_path (example_host 200) "macosx" "/out"
  = Ok {| root := "/"; parts := ["out"; "macos"] |}.
Proof.
  apply (download_path_layout (example_host 200) "macosx" "/out" "macos" "");
    [reflexivity | reflexivity | | by apply not_contains_computed].
  split_and!; [done | done | by apply not_contains_computed].
Defined.

(** X9: a variant that begins with a dash and whose rest holds no
    ["win64"] has an empty OS, and without a platform extension its
    subdirectory [/abi] is an absolute path, which replaces the base: once
    the base is made, the download directory is the resolution of [/abi],
    the same whatever [output_base] is. *)
Theorem download_path_ignores_base_for_empty_os
    (h : Host) (abi output_base : string) :
  has_platform h = false ->
  ~ contains abi "win64" ->
  variant_to_pair ("-" +:+ abi) = Ok ("", abi)
  /\ calculate_download_path h ("-" +:+ abi) output_base
     = (absolute_base h output_base;; resolve h (parse ("/" +:+ abi)))
  /\ (forall base,
        absolute_base h output_base = Ok base ->
        calculate_download_path h ("-" +:+ abi) output_base
        = resolve h (parse ("/" +:+ abi))).
Proof.
  intros Hno Hwin.
  assert (Hsplit : variant_to_pair ("-" +:+ abi) = Ok ("", abi)).
  { change ("-" +:+ abi) with ("" +:+ "-" +:+ abi).
    rewrite variant_to_pair_dash.
    - change (String.eqb "" "android") with false. cbv iota.
      by rewrite (proj2 (find_absent _ _) Hwin).
    - rewrite <- fixed_test_spec. simpl. discriminate.
    - apply dash_free_empty. }
  split; [done|].
  rewrite (calculate_download_path_split h _ _ _ _ Hsplit).
  unfold subdirectory. rewrite Hno.
  change ("" +:+ "/" +:+ abi) with ("/" +:+ abi).
  assert (Habs : is_absolute (parse ("/" +:+ abi)) = true).
  { unfold parse, splitroot. change ("/" +:+ abi) with (String "/" abi).
    change (PyStr.startswith (String "/" abi) "/") with true. cbv iota.
    by destruct (_ =? 2). }
  assert (Hjoin : forall base,
            joinpath base (parse ("/" +:+ abi)) = parse ("/" +:+ abi)).
  { intros base. unfold joinpath. by rewrite Habs. }
  split.
  - destruct (absolute_base h output_base) as [base|e]; [|done].
    cbn [mbind result_bind]. by rewrite Hjoin.
  - intros base ->. cbn [mbind result_bind]. by rewrite Hjoin.
Qed.

Lemma download_path_ignores_base_for_empty_os_witness :
  calculate_download_path (example_host 200) "-tmp" "/out"
  = Ok {| root := "/"; parts := ["tmp"] |}.
Proof.
  apply (proj2 (proj2 (download_path_ignores_base_for_empty_os
                         (example_host 200) "tmp" "/out" eq_refl
                         ltac:(by apply not_contains_computed)))
           {| root := "/"; parts := ["out"] |}).
  reflexivity.
Defined.

(** ** Runs of the fetcher and of the dry run *)

(** X10: a malformed build descriptor or, with a good one, a download path
    that cannot be computed (in particular a variant that cannot be split,
    the base directory being there) makes both [download_variant] and
    [check_variant] raise at once: nothing has been printed, deleted,
    created or requested. *)
Theorem invalid_input_raises_before_any_effect
    (h : Host) (folder variant : string) (build : option string)
    (debug : bool) (output_base : string) (w : World) (e : exception) :
  filename_for_platform variant debug build = Raise e
  \/ (is_ok (filename_for_platform variant debug build) = true
      /\ is_ok (absolute_base h output_base) = true
      /\ variant_to_pair variant = Raise e)
  \/ (is_ok (filename_for_platform variant debug build) = true
      /\ calculate_download_path h variant output_base = Raise e) ->
  download_variant h folder variant build debug output_base w = (Raise e, w)
  /\ check_variant h folder variant build debug output_base w = (Raise e, w).
Proof.
  intros Hcases.
  assert (Hfile : filename_for_platform variant debug build = Raise e
                  \/ (is_ok (filename_for_platform variant debug build) = true
                      /\ calculate_download_path h variant output_base
                         = Raise e)).
  { destruct Hcases as [Hfile | [(Hfile & Hbase & Hsplit) | Hpath]];
      [by left | right | by right].
    split; [done|].
    destruct (absolute_base h output_base) as [base|] eqn:E; [|done].
    by apply (calculate_download_path_invalid h _ _ base). }
  destruct Hfile as [Hfile | [Hfile Hpath]].
  - unfold download_variant, check_variant. rewrite !run_bind.
    unfold lift. by rewrite Hfile.
  - destruct (filename_for_platform variant debug build) as [filename|]
      eqn:E; [|done].
    unfold download_variant, check_variant. rewrite E, Hpath.
    rewrite !run_bind. unfold lift at 1 3. cbv beta iota.
    rewrite !run_bind. by unfold lift at 1 2.
Qed.

Lemma invalid_input_raises_before_any_effect_witness :
  download_variant (example_host 200) "http://build" "windows" None false
    "/out" example_world = (Raise ValueError, example_world)
  /\ check_variant (example_host 200) "http://build" "windows" None false
       "/out" example_world = (Raise ValueError, example_world).
Proof.
  apply invalid_input_raises_before_any_effect. right. left. by split_and!.
Defined.

(** A request that gets no HTTP answer: the exception is not caught. *)
Lemma fetch_no_response h variant filename url dir w :
  server h url = NoResponse ->
  fetch_and_extract h variant filename url dir w
  = (Raise URLError, requested_world w url (dir +:+ "/" +:+ filename)).
Proof.
  intros Hs. unfold fetch_and_extract. cbv zeta. rewrite run_bind.
  unfold try_except_HTTPError. rewrite run_bind.
  unfold urlretrieve, with_fs. by rewrite Hs.
Qed.

(** X11: when the request gets no HTTP answer at all, [download_variant]
    does not return 1: the exception leaves the function, after the target
    directory has been emptied and with nothing printed about the failure. *)
Theorem download_variant_transport_failure_raises
    (h : Host) (folder variant : string) (build : option string)
    (debug : bool) (output_base : string) (w : World)
    (filename : string) (path : Path) :
  filename_for_platform variant debug build = Ok filename ->
  calculate_download_path h variant output_base = Ok path ->
  key h (str path) <> [] ->
  forallb (is_dir_or_free (fs w)) (ancestors (key h (str path))) = true ->
  server h (folder +:+ "/" +:+ filename) = NoResponse ->
  exists w',
    download_variant h folder variant build debug output_base w
    = (Raise URLError, w')
    /\ fs w' = prepared (key h (str path)) (fs w)
    /\ stdout w' = stdout w ++ downloading_message w filename (str path)
    /\ calls w'
       = calls w ++ prepare_calls (key h (str path)) (fs w) (str path)
         ++ [CallUrlretrieve (folder +:+ "/" +:+ filename)
               (str path +:+ "/" +:+ filename)].
Proof.
  intros Hfile Hpath Hne Hall Hserver.
  rewrite (download_variant_ready h _ _ _ _ _ _ _ _ Hfile Hpath Hne Hall).
  rewrite fetch_no_response by done. eexists. split; [done|].
  unfold requested_world, ready_world. cbn [fs stdout calls quiet].
  by rewrite <- app_assoc.
Qed.

Lemma download_variant_transport_failure_raises_witness :
  exists w',
    download_variant offline_host "http://build" "windows-win64" None false
      "/out" example_world = (Raise URLError, w')
    /\ fs w' !! ["out"; "windows"; "x86_64"; "old.dll"] = None.
Proof.
  destruct (download_variant_transport_failure_raises offline_host
              "http://build" "windows-win64" None false "/out" example_world
              "couchbase-lite-core-windows-win64.zip"
              {| root := "/"; parts := ["out"; "windows"; "x86_64"] |}
              eq_refl eq_refl ltac:(discriminate) eq_refl eq_refl)
    as (w' & Hrun & Hfs & _).
  exists w'. split; [exact Hrun|]. rewrite Hfs. reflexivity.
Defined.

(** *** Quiet mode *)

(** Storing a file fails with [OSError] only. *)
Lemma write_file_fs_raise (k : list string) (body : string) (fs0 fs1 : FS)
    (e : exception) :
  write_file_fs k body fs0 = (Raise e, fs1) -> e = OSError.
Proof.
  unfold write_file_fs.
  destruct (lookup_node fs0 (removelast k)) as [[| |]|];
    destruct (lookup_node fs0 k) as [[| |]|]; congruence.
Qed.

Lemma quiet_silent_ret {A : Type} (a : A) : quiet_silent (mret a : M A).
Proof. intros w r w' Hq [= <- <-]. done. Qed.

Lemma quiet_silent_lift {A : Type} (x : result A) : quiet_silent (lift x).
Proof. intros w r w' Hq [= <- <-]. done. Qed.

Lemma quiet_silent_bind {A B : Type} (m : M A) (f : A -> M B) :
  quiet_silent m -> (forall a, quiet_silent (f a)) -> quiet_silent (m ≫= f).
Proof.
  intros Hm Hf w r w' Hq. rewrite run_bind.
  destruct (m w) as [[a|e] w1] eqn:E.
  - destruct (Hm _ _ _ Hq E) as [Hout Hq1]. intros Hrun.
    destruct (Hf a _ _ _ Hq1 Hrun) as [Hout' Hq']. by rewrite Hout', Hout.
  - intros [= <- <-]. by apply (Hm _ _ _ Hq E).
Qed.

Lemma quiet_silent_with_fs c f : quiet_silent (with_fs c f).
Proof.
  intros w r w' Hq. unfold with_fs. destruct (f (fs w)) as [r1 fs1].
  by intros [= <- <-].
Qed.

Lemma quiet_silent_conditional_print msg : quiet_silent (conditional_print msg).
Proof.
  intros w r w' Hq. unfold conditional_print. rewrite Hq.
  by intros [= <- <-].
Qed.

Lemma quiet_silent_for_each {A : Type} (l : list A) (body : A -> M unit) :
  (forall x, quiet_silent (body x)) -> quiet_silent (for_each l body).
Proof.
  intros Hbody. induction l as [|x l IH]; cbn [for_each].
  - apply quiet_silent_ret.
  - apply quiet_silent_bind; [apply Hbody | by intros _].
Qed.

Lemma quiet_silent_unzip h src dest : quiet_silent (unzip h src dest).
Proof.
  unfold unzip. apply quiet_silent_bind.
  - intros w r w' Hq. unfold open_zip.
    destruct (read_file h src w) as [[data|e] w1]; by intros [= <- <-].
  - intros zip. apply quiet_silent_for_each. intros zipinfo.
    unfold unzip_entry. cbv zeta.
    destruct (_ =? _)%Z; [|apply quiet_silent_with_fs].
    apply quiet_silent_bind; [apply quiet_silent_lift|]. intros data.
    apply quiet_silent_bind; [apply quiet_silent_lift|]. intros linkpath.
    apply quiet_silent_with_fs.
Qed.

Lemma quiet_silent_tar_extract h src dest : quiet_silent (tar_extract h src dest).
Proof.
  intros w r w' Hq. unfold tar_extract.
  destruct (read_file h src w) as [[data|e] w1]; by apply quiet_silent_with_fs.
Qed.

Lemma reports_only_failure_lift {A : Type} (P : Z -> Prop) (x : result A)
    (f : A -> M Z) :
  (forall a, x = Ok a -> reports_only_failure P (f a)) ->
  reports_only_failure P (lift x ≫= f).
Proof.
  intros Hf w r w' Hq. rewrite run_bind. unfold lift.
  destruct x as [a|e].
  - by apply Hf.
  - intros [= <- <-]. by left.
Qed.

Lemma reports_only_failure_bind {A : Type} (P : Z -> Prop) (m : M A)
    (f : A -> M Z) :
  quiet_silent m -> (forall a, reports_only_failure P (f a)) ->
  reports_only_failure P (m ≫= f).
Proof.
  intros Hm Hf w r w' Hq. rewrite run_bind.
  destruct (m w) as [[a|e] w1] eqn:E.
  - destruct (Hm _ _ _ Hq E) as [Hout Hq1]. intros Hrun.
    destruct (Hf a _ _ _ Hq1 Hrun) as [[Hr Hout']|(code & HP & -> & Hout')].
    + left. by rewrite Hout', Hout.
    + right. exists code. by rewrite Hout', Hout.
  - intros [= <- <-]. left. split; [done|]. by apply (Hm _ _ _ Hq E).
Qed.

(** From the request on, in quiet mode: the one line of an HTTP failure and
    the result 1 go together, and nothing else is printed. *)
Lemma fetch_and_extract_reports h variant filename url dir :
  reports_only_failure (refused h url)
    (fetch_and_extract h variant filename url dir).
Proof.
  intros w r w' Hq. unfold fetch_and_extract. cbv zeta. rewrite run_bind.
  unfold try_except_HTTPError. rewrite run_bind.
  unfold urlretrieve, with_fs.
  destruct (server h url) as [status body|] eqn:Hs.
  - destruct ((200 <=? status)%Z && (status <? 300)%Z) eqn:Hy.
    + destruct (write_file_fs _ body (fs w)) as [[[]|e] fs1] eqn:Hw.
      * cbn [mret M_ret]. destruct (String.eqb variant "ios/net").
        { intros [= <- <-]. by left. }
        intros Hrun. left.
        assert (Hs' : quiet_silent
                  (conditional_print ("--- Extracting " +:+ filename +:+ "...");;
                   (if PyStr.endswith filename "tar.gz"
                    then tar_extract h (dir +:+ "/" +:+ filename) dir
                    else unzip h (dir +:+ "/" +:+ filename) dir);;
                   mret 0%Z)).
        { apply quiet_silent_bind; [apply quiet_silent_conditional_print|].
          intros _. apply quiet_silent_bind; [|intros _; apply quiet_silent_ret].
          destruct (PyStr.endswith filename "tar.gz");
            [apply quiet_silent_tar_extract | apply quiet_silent_unzip]. }
        split; [|apply Hs' in Hrun as [Hout _]; [exact Hout | exact Hq]].
        revert Hrun. rewrite conditional_print_run, run_bind.
        match goal with
        | |- context [(if PyStr.endswith filename "tar.gz" then ?a else ?b) ?x] =>
            destruct ((if PyStr.endswith filename "tar.gz" then a else b) x)
              as [[[]|e] w2]
        end; by intros [= <- <-].
      * apply write_file_fs_raise in Hw as ->. intros [= <- <-]. by left.
    + rewrite run_bind. unfold print. cbn [mret M_ret fs stdout calls quiet].
      intros [= <- <-]. right. exists status. split_and!; [|done..].
      split; [by exists body|]. apply not_true_iff_false in Hy.
      by rewrite is_2xx_test in Hy.
  - intros [= <- <-]. by left.
Qed.

(** X12: in quiet mode the result 1 and the report of an HTTP failure go
    together.  A run of [download_variant] that does not return 1 prints
    nothing at all; a run that returns 1 was answered, for the file it asks
    for, a status outside 200..299 and prints exactly the one line with
    that status; and once the request is reached and answered such a
    status, the run does return 1 and the line is printed. *)
Theorem quiet_mode_prints_only_failures
    (h : Host) (folder variant : string) (build : option string)
    (debug : bool) (output_base : string) (w w' : World) (r : result Z) :
  quiet w = true ->
  download_variant h folder variant build debug output_base w = (r, w') ->
  (r <> Ok 1%Z -> stdout w' = stdout w)
  /\ (r = Ok 1%Z ->
      exists (filename : string) (code : Z) (body : string),
        filename_for_platform variant debug build = Ok filename
        /\ server h (folder +:+ "/" +:+ filename) = Response code body
        /\ ~ is_2xx code
        /\ stdout w' = stdout w ++ ["!!! Failed: " +:+ pretty code])
  /\ (forall (filename : string) (path : Path) (code : Z) (body : string),
        filename_for_platform variant debug build = Ok filename ->
        calculate_download_path h variant output_base = Ok path ->
        key h (str path) <> [] ->
        forallb (is_dir_or_free (fs w)) (ancestors (key h (str path))) = true ->
        server h (folder +:+ "/" +:+ filename) = Response code body ->
        ~ is_2xx code ->
        r = Ok 1%Z
        /\ stdout w' = stdout w ++ ["!!! Failed: " +:+ pretty code]).
Proof.
  intros Hq Hrun.
  assert (Hrep : reports_only_failure
            (fun code => exists filename,
               filename_for_platform variant debug build = Ok filename
               /\ refused h (folder +:+ "/" +:+ filename) code)
            (download_variant h folder variant build debug output_base)).
  { unfold download_variant.
    apply reports_only_failure_lift. intros filename Hfile. cbv zeta.
    apply reports_only_failure_lift. intros path _.
    apply reports_only_failure_bind; [apply quiet_silent_conditional_print|].
    intros _.
    apply reports_only_failure_bind.
    { intros w0 r0 w0' Hq0 [= <- <-]. done. }
    intros found.
    apply reports_only_failure_bind.
    { destruct found; [apply quiet_silent_with_fs | apply quiet_silent_ret]. }
    intros _.
    apply reports_only_failure_bind; [apply quiet_silent_with_fs|]. intros _.
    intros w0 r0 w0' Hq0 Hrun0.
    destruct (fetch_and_extract_reports h variant filename
                (folder +:+ "/" +:+ filename) (str path) w0 r0 w0' Hq0 Hrun0)
      as [Hsilent | (code & Hcode & Hone & Hout)]; [by left|].
    right. exists code. split_and!; [by exists filename | done | done]. }
  split_and!.
  - intros Hr. by destruct (Hrep w r w' Hq Hrun) as [[_ Hout] | (code & _ & Hone & _)].
  - intros Hr.
    destruct (Hrep w r w' Hq Hrun)
      as [[Hne _] | (code & (filename & Hfile & [body Hs] & Hn) & _ & Hout)];
      [done|].
    exists filename, code, body. by rewrite <- is_2xx_test, is_2xx_test.
  - intros filename path code body Hfile Hpath Hne Hall Hs Hn.
    rewrite (download_variant_ready h _ _ _ _ _ _ _ _ Hfile Hpath Hne Hall)
      in Hrun.
    rewrite (fetch_failure h _ _ _ _ _ _ _ Hs Hn) in Hrun.
    injection Hrun as <- <-. split; [done|].
    unfold add_output, requested_world, ready_world, downloading_message.
    cbn [fs stdout calls quiet]. by rewrite Hq, app_nil_r.
Qed.

Lemma quiet_mode_prints_only_failures_witness :
  exists w',
    download_variant (example_host 404) "http://build" "windows-win64" None
      false "/out" quiet_world = (Ok 1%Z, w')
    /\ stdout w' = ["!!! Failed: 404"].
Proof.
  assert (Hrun : exists w', download_variant (example_host 404) "http://build"
                   "windows-win64" None false "/out" quiet_world
                 = (Ok 1%Z, w')).
  { eexists. vm_compute. reflexivity. }
  destruct Hrun as [w' Hrun]. exists w'. split; [exact Hrun|].
  assert (Hn : ~ is_2xx 404) by (unfold is_2xx; lia).
  exact (proj2 (proj2 (proj2 (quiet_mode_prints_only_failures
                                (example_host 404) "http://build"
                                "windows-win64" None false "/out" quiet_world
                                w' (Ok 1%Z) eq_refl Hrun))
                  "couchbase-lite-core-windows-win64.zip"
                  {| root := "/"; parts := ["out"; "windows"; "x86_64"] |}
                  404%Z "PK" eq_refl eq_refl ltac:(discriminate) eq_refl
                  eq_refl Hn)).
Defined.

(** *** The dry run *)

(** The dry run for a variant whose name and path are computed and whose
    request is answered. *)
Lemma check_variant_run h folder variant build debug output_base w
    filename path status body :
  filename_for_platform variant debug build = Ok filename ->
  calculate_download_path h variant output_base = Ok path ->
  server h (folder +:+ "/" +:+ filename) = Response status body ->
  check_variant h folder variant build debug output_base w
  = (Ok (if (200 <=? status)%Z && (status <? 300)%Z then 0%Z else 1%Z),
     {| fs := fs w;
        stdout := stdout w ++ check_output filename path status;
        calls := calls w;
        quiet := quiet w |}).
Proof.
  intros Hfile Hpath Hserver. unfold check_variant. rewrite Hfile, Hpath.
  rewrite run_bind. unfold lift at 1. cbv beta iota zeta.
  rewrite run_bind. unfold lift at 1. cbv beta iota.
  rewrite run_bind. unfold print at 1. cbv beta iota.
  rewrite run_bind. unfold try_except_HTTPError.
  rewrite run_bind. unfold urlopen. rewrite Hserver.
  unfold check_output.
  destruct ((200 <=? status)%Z && (status <? 300)%Z).
  - rewrite !run_bind. unfold print. cbn [mret M_ret fs stdout calls quiet].
    rewrite run_bind. cbn [mret M_ret fs stdout calls quiet].
    by rewrite <- !app_assoc.
  - rewrite !run_bind. unfold print. cbn [mret M_ret fs stdout calls quiet].
    rewrite ?run_bind. cbn [mret M_ret fs stdout calls quiet].
    by rewrite <- !app_assoc.
Qed.

(** With an answer in 200..299, the fetcher returns 0 or raises. *)
Lemma fetch_success_not_one h variant filename url dir w status body r w' :
  server h url = Response status body -> is_2xx status ->
  fetch_and_extract h variant filename url dir w = (r, w') ->
  r <> Ok 1%Z.
Proof.
  intros Hs Hy. rewrite <- is_2xx_test in Hy.
  unfold fetch_and_extract. cbv zeta. rewrite run_bind.
  unfold try_except_HTTPError. rewrite run_bind.
  unfold urlretrieve, with_fs. rewrite Hs, Hy.
  destruct (write_file_fs _ body (fs w)) as [[[]|e] fs1] eqn:Hw.
  - cbn [mret M_ret]. destruct (String.eqb variant "ios/net").
    + by intros [= <- <-].
    + rewrite conditional_print_run, run_bind.
      match goal with
      | |- context [(if PyStr.endswith filename "tar.gz" then ?a else ?b) ?x] =>
          destruct ((if PyStr.endswith filename "tar.gz" then a else b) x)
            as [[[]|e] w2]
      end; by intros [= <- <-].
  - apply write_file_fs_raise in Hw as ->. by intros [= <- <-].
Qed.

(** A computation made of two returns a value only when both do. *)
Lemma bind_returns {A B : Type} (m : M A) (f : A -> M B) (w w' : World) (b : B) :
  (m ≫= f) w = (Ok b, w') ->
  exists a w1, m w = (Ok a, w1) /\ f a w1 = (Ok b, w').
Proof.
  rewrite run_bind. destruct (m w) as [[a|e] w1]; [eauto | done].
Qed.

(** The fetcher returns 1 only after an answer outside 200..299. *)
Lemma fetch_and_extract_one h variant filename url dir w w' :
  fetch_and_extract h variant filename url dir w = (Ok 1%Z, w') ->
  exists status body, server h url = Response status body /\ ~ is_2xx status.
Proof.
  intros Hrun. destruct (server h url) as [status body|] eqn:Hs.
  - exists status, body. split; [done|]. intros Hy.
    by apply (fetch_success_not_one h _ _ _ _ _ _ _ _ _ Hs Hy Hrun).
  - by rewrite fetch_no_response in Hrun.
Qed.

(** [download_variant] returns 1 only after an answer outside 200..299 to
    the request for the file of the variant. *)
Lemma download_variant_one h folder variant build debug output_base w w' :
  download_variant h folder variant build debug output_base w = (Ok 1%Z, w') ->
  exists filename status body,
    filename_for_platform variant debug build = Ok filename
    /\ server h (folder +:+ "/" +:+ filename) = Response status body
    /\ ~ is_2xx status.
Proof.
  unfold download_variant. intros Hrun.
  apply bind_returns in Hrun as (filename & w1 & Hfile & Hrun).
  cbv zeta in Hrun.
  apply bind_returns in Hrun as (path & w2 & _ & Hrun).
  apply bind_returns in Hrun as (_ & w3 & _ & Hrun).
  apply bind_returns in Hrun as (found & w4 & _ & Hrun).
  apply bind_returns in Hrun as (_ & w5 & _ & Hrun).
  apply bind_returns in Hrun as (_ & w6 & _ & Hrun).
  apply (fetch_and_extract_one h variant filename
           (folder +:+ "/" +:+ filename) (str path)) in Hrun
    as (status & body & Hs & Hn).
  exists filename, status, body. split_and!; [|done..].
  unfold lift in Hfile. congruence.
Qed.

(** X13: for a request that is answered, the dry run changes nothing on the
    host (no file, no directory, none of the recorded calls) and returns 1
    exactly when the status is outside 200..299, and 0 otherwise.  The real
    run, started in the same world, returns 1 only in that case; and in
    that case it does return 1 whenever the target directory can be
    prepared: the download path is not the root, and the path and each
    directory above it is a directory or missing. *)
Theorem check_variant_predicts_download
    (h : Host) (folder variant : string) (build : option string)
    (debug : bool) (output_base : string) (w : World)
    (filename : string) (path : Path) (status : Z) (body : string) :
  filename_for_platform variant debug build = Ok filename ->
  calculate_download_path h variant output_base = Ok path ->
  server h (folder +:+ "/" +:+ filename) = Response status body ->
  exists w1,
    check_variant h folder variant build debug output_base w
    = (Ok (if decide (is_2xx status) then 0%Z else 1%Z), w1)
    /\ fs w1 = fs w /\ calls w1 = calls w
    /\ (forall r w2,
          download_variant h folder variant build debug output_base w
          = (r, w2) ->
          r = Ok 1%Z -> ~ is_2xx status)
    /\ (~ is_2xx status ->
        key h (str path) <> [] ->
        forallb (is_dir_or_free (fs w)) (ancestors (key h (str path))) = true ->
        exists w2,
          download_variant h folder variant build debug output_base w
          = (Ok 1%Z, w2)).
Proof.
  intros Hfile Hpath Hserver.
  rewrite (check_variant_run h _ _ _ _ _ _ _ _ _ _ Hfile Hpath Hserver).
  assert (Hb : (if (200 <=? status)%Z && (status <? 300)%Z then 0%Z else 1%Z)
               = (if decide (is_2xx status) then 0%Z else 1%Z)).
  { destruct (decide (is_2xx status)) as [Hy|Hn].
    - by rewrite (proj2 (is_2xx_test status) Hy).
    - rewrite <- is_2xx_test in Hn. by apply not_true_is_false in Hn as ->. }
  rewrite Hb. eexists. split_and!; [reflexivity | reflexivity | reflexivity | |].
  - intros r w2 Hrun ->.
    apply download_variant_one in Hrun
      as (filename' & status' & body' & Hfile' & Hs' & Hn').
    congruence.
  - intros Hn Hne Hall.
    rewrite (download_variant_ready h _ _ _ _ _ _ _ _ Hfile Hpath Hne Hall).
    eexists. by eapply fetch_failure.
Qed.

Lemma check_variant_predicts_download_witness :
  exists w1 w2,
    check_variant (example_host 404) "http://build" "windows-win64" None
      false "/out" example_world = (Ok 1%Z, w1)
    /\ fs w1 = fs example_world
    /\ download_variant (example_host 404) "http://build" "windows-win64"
         None false "/out" example_world = (Ok 1%Z, w2).
Proof.
  assert (Hn : ~ is_2xx 404) by (unfold is_2xx; lia).
  destruct (check_variant_predicts_download (example_host 404)
              "http://build" "windows-win64" None false "/out"
              example_world "couchbase-lite-core-windows-win64.zip"
              {| root := "/"; parts := ["out"; "windows"; "x86_64"] |}
              404 "PK" eq_refl eq_refl eq_refl)
    as (w1 & Hrun & Hfs & _ & _ & Hreal).
  destruct (Hreal Hn ltac:(discriminate) eq_refl) as [w2 Hrun2].
  exists w1, w2. split_and!; [exact Hrun | exact Hfs | exact Hrun2].
Defined.

(** Code points add up, and a dot is one. *)
Lemma len_append (s1 s2 : string) :
  PyStr.len (s1 +:+ s2) = PyStr.len s1 + PyStr.len s2.
Proof.
  induction s1 as [|a s1 IH]; [done|]. cbn [String.append PyStr.len].
  destruct (PyStr.continuation a); lia.
Qed.

Lemma len_dots (n : nat) :
  PyStr.len (string_of_list_ascii (replicate n "."%char)) = n.
Proof. induction n as [|n IH]; [done|]. cbn. by rewrite IH. Qed.

(** X14: for an answered request the dry run prints three texts, whether or
    not quiet mode is on: the line ["--- Checking <name>"] with dots added
    until it has 80 code points (exactly 80 when it has no more, itself
    when it has 80 or more), the status, and the download path after a
    tab.  For an answer in 200..299 the status printed is the text ["200"]
    whatever the status was; otherwise it is the status. *)
Theorem check_variant_output
    (h : Host) (folder variant : string) (build : option string)
    (debug : bool) (output_base : string) (w : World)
    (filename : string) (path : Path) (status : Z) (body : string) :
  filename_for_platform variant debug build = Ok filename ->
  calculate_download_path h variant output_base = Ok path ->
  server h (folder +:+ "/" +:+ filename) = Response status body ->
  exists r w1,
    check_variant h folder variant build debug output_base w = (r, w1)
    /\ stdout w1
       = stdout w
         ++ [ ljust ("--- Checking " +:+ filename) 80 ".";
              (if decide (is_2xx status) then "200" else pretty status);
              String "009" "Download path: " +:+ str path ]
    /\ (PyStr.len ("--- Checking " +:+ filename) <= 80 ->
        PyStr.len (ljust ("--- Checking " +:+ filename) 80 ".") = 80)
    /\ (80 <= PyStr.len ("--- Checking " +:+ filename) ->
        ljust ("--- Checking " +:+ filename) 80 "."
        = "--- Checking " +:+ filename).
Proof.
  intros Hfile Hpath Hserver.
  rewrite (check_variant_run h _ _ _ _ _ _ _ _ _ _ Hfile Hpath Hserver).
  eexists _, _. split_and!; [reflexivity | | |].
  - cbn [stdout]. unfold check_output. do 3 f_equal.
    destruct (decide (is_2xx status)) as [Hy|Hn].
    + by rewrite (proj2 (is_2xx_test status) Hy).
    + rewrite <- is_2xx_test in Hn. by apply not_true_is_false in Hn as ->.
  - intros Hlen. unfold ljust. rewrite len_append, len_dots. lia.
  - intros Hlen. unfold ljust.
    replace (80 - PyStr.len ("--- Checking " +:+ filename)) with 0 by lia.
    apply append_empty_r.
Qed.

Lemma check_variant_output_witness :
  exists r w1,
    check_variant (example_host 204) "http://build"
      (String "195" (String "169" "-x")) None false "/out" quiet_world
    = (r, w1)
    /\ stdout w1
       = ["--- Checking couchbase-lite-core-"
            +:+ String "195" (String "169" "-x.zip")
            +:+ "........................................";
          "200";
          String "009" "Download path: /out/"
            +:+ String "195" (String "169" "/x")].
Proof.
  destruct (check_variant_output (example_host 204) "http://build"
              (String "195" (String "169" "-x")) None false "/out" quiet_world
              ("couchbase-lite-core-" +:+ String "195" (String "169" "-x.zip"))
              {| root := "/";
                 parts := ["out"; String "195" (String "169" ""); "x"] |}
              204 "PK" eq_refl eq_refl eq_refl)
    as (r & w1 & Hrun & Hout & _).
  exists r, w1. split; [exact Hrun|]. rewrite Hout. reflexivity.
Defined.

(** *** The extraction loop *)

(** A loop over two lists in a row runs the second where the first ends,
    and not at all when the first raises. *)
Lemma for_each_app {A : Type} (pre l : list A) (body : A -> M unit) (w : World) :
  for_each (pre ++ l) body w
  = match for_each pre body w with
    | (Ok _, w1) => for_each l body w1
    | (Raise e, w1) => (Raise e, w1)
    end.
Proof.
  revert w. induction pre as [|x pre IH]; intros w; [done|].
  cbn [app for_each]. rewrite !run_bind.
  destruct (body x w) as [[[]|e] w1]; [apply IH | done].
Qed.

(** X15: the extraction stops at the first entry that fails.  When the
    place the system finds for the name of a symbolic-link entry is taken
    (the text and the name hold no NUL character), [unzip] raises
    [OSError]: what the earlier entries did stays, the link is not made,
    and no later entry of the archive gets its turn. *)
Theorem unzip_stops_at_taken_link
    (h : Host) (src dest : string) (w w0 w1 : World) (zip : ZipFile)
    (pre post : list ZipInfo) (entry : ZipInfo) (data linkpath : string)
    (k : list string) :
  open_zip h src w = (Ok zip, w0) ->
  infolist zip = pre ++ entry :: post ->
  for_each pre (unzip_entry h zip dest) w0 = (Ok tt, w1) ->
  Z.shiftr (external_attr entry) 28 = 10%Z ->
  read zip (filename entry) = Ok data ->
  utf8_decode h data = Ok linkpath ->
  has_nul linkpath = false ->
  has_nul (os_path_join dest (filename entry)) = false ->
  new_name_place (cwd h) (os_path_join dest (filename entry)) (fs w1) = Ok k ->
  lookup_node (fs w1) k <> None ->
  unzip h src dest w
  = (Raise OSError,
     {| fs := fs w1;
        stdout := stdout w1;
        calls := calls w1
                 ++ [CallSymlink linkpath (os_path_join dest (filename entry))];
        quiet := quiet w1 |}).
Proof.
  intros Hopen Hlist Hpre Hn Hread Hdec Hnt Hnd Hplace Htaken. unfold unzip.
  rewrite run_bind, Hopen, Hlist, for_each_app, Hpre.
  cbn [for_each]. rewrite run_bind.
  rewrite (unzip_entry_link h zip dest entry w1 data linkpath) by done.
  unfold os_symlink, with_fs.
  by rewrite (symlink_fs_taken h linkpath _ (fs w1) k).
Qed.

Lemma unzip_stops_at_taken_link_witness :
  exists w',
    unzip (example_host 200) "/a.zip" "/d" occupied_unzip_world
    = (Raise OSError, w')
    /\ fs w' = fs occupied_unzip_world
    /\ calls w' = [CallZipOpen "/a.zip";
                   CallSymlink "../lib/foo.so" "/d/libfoo.so"].
Proof.
  eexists. split.
  - apply (unzip_stops_at_taken_link (example_host 200) "/a.zip" "/d"
             occupied_unzip_world
             {| fs := fs occupied_unzip_world; stdout := [];
                calls := [CallZipOpen "/a.zip"]; quiet := false |}
             {| fs := fs occupied_unzip_world; stdout := [];
                calls := [CallZipOpen "/a.zip"]; quiet := false |}
             example_zip []
             [ {| filename := "readme.txt"; external_attr := 0x81A40000 |} ]
             {| filename := "libfoo.so"; external_attr := 0xA1FF0000 |}
             "../lib/foo.so" "../lib/foo.so" ["d"; "libfoo.so"]);
      [reflexivity | reflexivity | reflexivity | reflexivity | reflexivity
      | reflexivity | reflexivity | reflexivity | reflexivity
      | vm_compute; discriminate].
  - split; reflexivity.
Defined.

(** X16: a symbolic-link entry whose name starts with ["/"] is made at that
    absolute name, whatever the directory the archive is extracted into:
    [os.path.join] drops the directory before an absolute name.  This holds
    whenever the link can be made there: the text of the entry is read and
    is not empty, text and name hold no NUL character, the system finds the
    directory of the name and the name is free in it. *)
Theorem unzip_absolute_link_leaves_dest
    (h : Host) (zip : ZipFile) (dest : string) (entry : ZipInfo) (w : World)
    (data linkpath : string) (k : list string) :
  PyStr.startswith (filename entry) "/" = true ->
  Z.shiftr (external_attr entry) 28 = 10%Z ->
  read zip (filename entry) = Ok data ->
  utf8_decode h data = Ok linkpath ->
  link_place h (fs w) linkpath (filename entry) k ->
  unzip_entry h zip dest entry w
  = (Ok tt,
     {| fs := <[k := Symlink linkpath]> (fs w);
        stdout := stdout w;
        calls := calls w ++ [CallSymlink linkpath (filename entry)];
        quiet := quiet w |}).
Proof.
  intros Habs Hn Hread Hdec Hplace.
  rewrite (unzip_entry_link h zip dest entry w data linkpath) by done.
  unfold os_path_join. rewrite Habs.
  unfold os_symlink, with_fs. by rewrite (symlink_fs_made h _ _ _ k).
Qed.

Lemma unzip_absolute_link_leaves_dest_witness :
  exists w',
    unzip_entry (example_host 200) absolute_link_zip "/d"
      {| filename := "/etc/libfoo.so"; external_attr := 0xA1FF0000 |} etc_world
    = (Ok tt, w')
    /\ fs w' !! ["etc"; "libfoo.so"] = Some (Symlink "/tmp/target").
Proof.
  eexists. split.
  - apply (unzip_absolute_link_leaves_dest (example_host 200)
             absolute_link_zip "/d"
             {| filename := "/etc/libfoo.so"; external_attr := 0xA1FF0000 |}
             etc_world "/tmp/target" "/tmp/target" ["etc"; "libfoo.so"]);
      [reflexivity | reflexivity | reflexivity | reflexivity |].
    split_and!; [discriminate | reflexivity..].
  - reflexivity.
Defined.
